(** * vao-vulnexposedsecrets: the scan orchestrator of [main.py]

    A shallow embedding of [main.py]: the target resolver, the three tool
    adapters, the report consolidator and the scheduler, over an explicit
    model of the file system, of the external processes the program starts
    and of the log it writes.

    Everything the program does not own is an oracle of the environment
    [Env]: what an external process returns and does to the disk, which
    I/O calls the operating system refuses, and the [json] codec.  The
    theorems hold for every environment. *)

From Stdlib Require Import ZArith Ascii String List Bool Lia.
From stdpp Require Import base strings gmap list pretty.

Set Warnings "-register-all".

Open Scope string_scope.
Open Scope Z_scope.

(** ** Strings as the program uses them

    A Python [str] is a [string] holding the UTF-8 encoding of its code
    points: comparison, concatenation, prefix and substring tests are then
    the same on both sides, and [strip] below reads the encoded white
    space. *)

(** [re.match(r'^(http|https)://', target)] *)
Definition is_url (target : string) : bool :=
  String.prefix "http://" target || String.prefix "https://" target.

(** [needle in hay] on [str] *)
Fixpoint contains (needle hay : string) : bool :=
  String.prefix needle hay ||
  match hay with
  | EmptyString => false
  | String _ rest => contains needle rest
  end.

(** The code points of [str.isspace] are U+0009 to U+000D, U+001C to
    U+0020, U+0085, U+00A0, U+1680, U+2000 to U+200A, U+2028, U+2029,
    U+202F, U+205F and U+3000.  The ones of one byte: TAB to CR, FS to US,
    and space. *)
Definition is_space (c : ascii) : bool :=
  let n := nat_of_ascii c in
  ((9 <=? n)%nat && (n <=? 13)%nat) || ((28 <=? n)%nat && (n <=? 32)%nat).

Definition byte_is (n : nat) (c : ascii) : bool := (nat_of_ascii c =? n)%nat.

(** The ones of two bytes: U+0085 (C2 85) and U+00A0 (C2 A0). *)
Definition is_space2 (c1 c2 : ascii) : bool :=
  byte_is 194 c1 && (byte_is 133 c2 || byte_is 160 c2).

(** The ones of three bytes: U+1680 (E1 9A 80), U+2000 to U+200A (E2 80 80
    to E2 80 8A), U+2028, U+2029 and U+202F (E2 80 A8, A9 and AF), U+205F
    (E2 81 9F) and U+3000 (E3 80 80). *)
Definition is_space3 (c1 c2 c3 : ascii) : bool :=
  let n3 := nat_of_ascii c3 in
  (byte_is 225 c1 && byte_is 154 c2 && byte_is 128 c3) ||
  (byte_is 226 c1 && byte_is 128 c2 &&
   (((128 <=? n3)%nat && (n3 <=? 138)%nat) ||
    byte_is 168 c3 || byte_is 169 c3 || byte_is 175 c3)) ||
  (byte_is 226 c1 && byte_is 129 c2 && byte_is 159 c3) ||
  (byte_is 227 c1 && byte_is 128 c2 && byte_is 128 c3).

(** [s.lstrip()] *)
Fixpoint lstrip (s : string) : string :=
  match s with
  | String c1 rest1 =>
      if is_space c1 then lstrip rest1
      else
        match rest1 with
        | String c2 rest2 =>
            if is_space2 c1 c2 then lstrip rest2
            else
              match rest2 with
              | String c3 rest3 => if is_space3 c1 c2 c3 then lstrip rest3 else s
              | EmptyString => s
              end
        | EmptyString => s
        end
  | EmptyString => EmptyString
  end.

(** [s.rstrip()]: what is left of the rest, with [c] in front, is dropped
    when it is one white-space code point. *)
Fixpoint rstrip (s : string) : string :=
  match s with
  | String c rest =>
      match rstrip rest with
      | EmptyString => if is_space c then EmptyString else String c EmptyString
      | String c2 EmptyString =>
          if is_space2 c c2 then EmptyString else String c (String c2 EmptyString)
      | String c2 (String c3 EmptyString) =>
          if is_space3 c c2 c3 then EmptyString
          else String c (String c2 (String c3 EmptyString))
      | r => String c r
      end
  | EmptyString => EmptyString
  end.

(** [s.strip()] *)
Definition strip (s : string) : string := rstrip (lstrip s).

(** [x in xs] for a list of [str] *)
Definition mem (x : string) (xs : list string) : bool :=
  existsb (String.eqb x) xs.

(** ** Constants (lines 16-19) *)

Definition DEFAULT_SCHEDULE : string := "daily".
Definition VALID_SCHEDULES : list string := ["daily"; "weekly"; "monthly"; "once"].
Definition SECRETS_REPORT_FILENAME : string := "secrets_report.json".
Definition VULN_REPORT_FILENAME : string := "vulnerability_report.json".

(** ** JSON values and Python exceptions *)

(** What [json.load] returns.  A [dict] is an association list in insertion
    order; a float keeps its literal. *)
Inductive Json : Type :=
  | JNull
  | JBool (b : bool)
  | JInt (n : Z)
  | JFloat (literal : string)
  | JStr (s : string)
  | JList (items : list Json)
  | JDict (members : list (string * Json)).

(** [d[k] = v] on a [dict]: replaces in place, or appends. *)
Fixpoint dict_set (k : string) (v : Json) (d : list (string * Json))
  : list (string * Json) :=
  match d with
  | [] => [(k, v)]
  | (k', v') :: rest =>
      if String.eqb k k' then (k, v) :: rest else (k', v') :: dict_set k v rest
  end.

(** [d.get(k)] *)
Fixpoint dict_get (k : string) (d : list (string * Json)) : option Json :=
  match d with
  | [] => None
  | (k', v) :: rest => if String.eqb k k' then Some v else dict_get k rest
  end.

(** The subclasses of [Exception] the program tells apart in its [except]
    clauses; [OtherException] is any other subclass ([OSError],
    [UnicodeDecodeError], ...).  [msg] is [str(e)]. *)
Inductive exn : Type :=
  | FileNotFoundError (msg : string)
  | CalledProcessError (cmd : list string) (returncode : Z) (stderr : string)
  | JSONDecodeError (msg : string)
  | AttributeError (msg : string)
  | OtherException (msg : string).

(** ** The file system *)

Inductive node : Type :=
  | File (content : string)
  | Dir (entries : gmap string node).

(** The disk: the files and directories there are, and which of them each
    path string names.  [names] sends a path string, as the program passes
    it to the operating system, to the entry it names: two strings with the
    same name are one file ([x] and [./x], a link and its target), and an
    operation through one of them is seen through the other.  A directory
    holds its own entries. *)
Record Disk : Type := mkDisk {
  files : gmap string node;
  names : string -> string
}.

Abbreviation FS := Disk.

(** [disk !! p], [<[p := n]> disk] and [delete p disk] act on the entry that
    [p] names. *)
#[global] Instance disk_lookup : Lookup string node Disk :=
  fun p disk => files disk !! names disk p.

#[global] Instance disk_insert : Insert string node Disk :=
  fun p n disk =>
    {| files := <[names disk p := n]> (files disk); names := names disk |}.

#[global] Instance disk_delete : Delete string Disk :=
  fun p disk =>
    {| files := delete (names disk p) (files disk); names := names disk |}.

(** The empty disk, on which every path string names an entry of its own. *)
#[global] Instance disk_empty : Empty Disk :=
  {| files := ∅; names := fun p => p |}.

#[global] Instance disk_singleton : SingletonM string node Disk :=
  fun p n => <[p := n]> ∅.

Arguments disk_lookup : simpl never.
Arguments disk_insert : simpl never.
Arguments disk_delete : simpl never.

(** [same_file disk p q]: the path strings [p] and [q] name one entry. *)
Definition same_file (disk : Disk) (p q : string) : Prop :=
  names disk p = names disk q.

Definition os_path_exists (fs : FS) (p : string) : bool :=
  match fs !! p with Some _ => true | None => false end.

Definition os_path_isdir (fs : FS) (p : string) : bool :=
  match fs !! p with Some (Dir _) => true | _ => false end.

(** [os.path.isdir(os.path.join(p, child))] for a one-component [child] *)
Definition os_path_isdir_in (fs : FS) (p child : string) : bool :=
  match fs !! p with
  | Some (Dir entries) =>
      match entries !! child with Some (Dir _) => true | _ => false end
  | _ => false
  end.

(** ** The world: the disk and what the program has done so far *)

Inductive level : Type := INFO | WARNING | ERROR.

Inductive syscall : Type :=
  | Makedirs (p : string)                          (* os.makedirs(p, exist_ok=True) *)
  | Rmtree (p : string)                            (* shutil.rmtree(p) *)
  | ReadFile (p : string)                          (* open(p, "r") and f.read() *)
  | WriteFile (p : string) (content : string)      (* open(p, "w") and the write *)
  | Spawn (argv : list string) (cwd : option string) (* subprocess.run(argv, cwd=cwd) *)
  | Sleep (seconds : Z).                           (* time.sleep(seconds) *)

(** [Sys c ok]: the call [c] was made, and returned ([ok = true]) or raised. *)
Inductive event : Type :=
  | Log (lvl : level) (msg : string)
  | Sys (c : syscall) (ok : bool).

(** [trace] is newest first. *)
Record World : Type := mkWorld { fs : FS; trace : list event }.

Definition emit (e : event) (w : World) : World :=
  {| fs := fs w; trace := e :: trace w |}.

Record completed : Type :=
  mkCompleted { returncode : Z; stdout : string; stderr : string }.

Inductive proc_result : Type :=
  | Exited (r : completed)
  | SpawnRaises (e : exn).

Inductive res (A : Type) : Type :=
  | Ok (a : A)
  | Raise (e : exn).
Arguments Ok {A} a.
Arguments Raise {A} e.

(** What the program does not own.  [run_process] is the external
    process behind [subprocess.run]: its result and the disk it leaves,
    which may depend on all that happened before.  [os_fault] is the
    operating system refusing a file operation (permissions, a missing
    parent directory, a full disk); a refused operation leaves the disk as
    it was.  [json_loads] is the decoder behind [json.load], on the content
    of the file; [json_dumps indent] is the encoder behind [json.dump], as
    [json.dumps(_, indent=indent)].  [clock] is the time in seconds, which
    moves as the environment decides. *)
Record Env : Type := mkEnv {
  run_process : list string -> option string -> World -> proc_result * FS;
  os_fault : syscall -> World -> option exn;
  json_loads : string -> res Json;
  json_dumps : option nat -> Json -> string;
  clock : World -> Z
}.

(** ** Computations: state and exceptions *)

Definition M (A : Type) : Type := World -> res A * World.

#[global] Instance M_ret : MRet M := fun A a w => (Ok a, w).
#[global] Instance M_bind : MBind M := fun A B f m w =>
  match m w with
  | (Ok a, w') => f a w'
  | (Raise e, w') => (Raise e, w')
  end.

Definition raise {A : Type} (e : exn) : M A := fun w => (Raise e, w).

(** [try: m  except Exception as e: h e] *)
Definition try_except {A : Type} (m : M A) (h : exn -> M A) : M A := fun w =>
  match m w with
  | (Ok a, w') => (Ok a, w')
  | (Raise e, w') => h e w'
  end.

Definition gets {A : Type} (f : FS -> A) : M A := fun w => (Ok (f (fs w)), w).

Definition logging (lvl : level) (msg : string) : M unit :=
  fun w => (Ok tt, emit (Log lvl msg) w).

(** [repr] of a list of [str], for arguments without quotes or escapes. *)
Definition repr_list (l : list string) : string :=
  "[" +:+ String.concat ", " (map (fun a => "'" +:+ a +:+ "'") l) +:+ "]".

(** [signal.Signals(n)], with the numbers of Linux; [None] where Python
    raises [ValueError]. *)
Definition signal_name (n : Z) : option string :=
  if n =? 34 then Some "SIGRTMIN"
  else if n =? 64 then Some "SIGRTMAX"
  else if n <=? 0 then None
  else
    nth_error
      ["SIGHUP"; "SIGINT"; "SIGQUIT"; "SIGILL"; "SIGTRAP"; "SIGABRT"; "SIGBUS";
       "SIGFPE"; "SIGKILL"; "SIGUSR1"; "SIGSEGV"; "SIGUSR2"; "SIGPIPE";
       "SIGALRM"; "SIGTERM"; "SIGSTKFLT"; "SIGCHLD"; "SIGCONT"; "SIGSTOP";
       "SIGTSTP"; "SIGTTIN"; "SIGTTOU"; "SIGURG"; "SIGXCPU"; "SIGXFSZ";
       "SIGVTALRM"; "SIGPROF"; "SIGWINCH"; "SIGIO"; "SIGPWR"; "SIGSYS"]
      (Z.to_nat (n - 1)).

(** [str(e)]; a process killed by a signal has the negated signal number as
    its return code. *)
Definition exn_str (e : exn) : string :=
  match e with
  | FileNotFoundError msg | JSONDecodeError msg
  | AttributeError msg | OtherException msg => msg
  | CalledProcessError cmd rc _ =>
      if rc <? 0 then
        match signal_name (- rc) with
        | Some name =>
            "Command '" +:+ repr_list cmd +:+ "' died with <Signals." +:+ name
            +:+ ": " +:+ pretty (- rc) +:+ ">."
        | None =>
            "Command '" +:+ repr_list cmd +:+ "' died with unknown signal "
            +:+ pretty (- rc) +:+ "."
        end
      else
        "Command '" +:+ repr_list cmd +:+ "' returned non-zero exit status "
        +:+ pretty rc +:+ "."
  end.

Section Program.

Context (env : Env).

(** *** Operating-system calls *)

Definition syscall_result {A : Type} (c : syscall) (r : res A) (fs' : FS)
  (w : World) : res A * World :=
  let ok := match r with Ok _ => true | Raise _ => false end in
  (r, {| fs := fs'; trace := Sys c ok :: trace w |}).

(** [subprocess.run(argv, cwd=cwd, check=check, capture_output=True, text=True)] *)
Definition subprocess_run (argv : list string) (cwd : option string)
  (check : bool) : M completed := fun w =>
  match run_process env argv cwd w with
  | (Exited r, fs') =>
      if check && negb (returncode r =? 0)
      then syscall_result (Spawn argv cwd)
             (Raise (CalledProcessError argv (returncode r) (stderr r))) fs' w
      else syscall_result (Spawn argv cwd) (Ok r) fs' w
  | (SpawnRaises e, fs') => syscall_result (Spawn argv cwd) (Raise e) fs' w
  end.

(** [os.makedirs(p, exist_ok=True)] *)
Definition os_makedirs (p : string) : M unit := fun w =>
  match os_fault env (Makedirs p) w with
  | Some e => syscall_result (Makedirs p) (Raise e) (fs w) w
  | None =>
      match fs w !! p with
      | Some (Dir _) => syscall_result (Makedirs p) (Ok tt) (fs w) w
      | Some (File _) =>
          syscall_result (Makedirs p)
            (Raise (OtherException ("[Errno 17] File exists: '" +:+ p +:+ "'")))
            (fs w) w
      | None => syscall_result (Makedirs p) (Ok tt) (<[p := Dir ∅]> (fs w)) w
      end
  end.

(** [shutil.rmtree(p)] *)
Definition shutil_rmtree (p : string) : M unit := fun w =>
  match os_fault env (Rmtree p) w with
  | Some e => syscall_result (Rmtree p) (Raise e) (fs w) w
  | None =>
      match fs w !! p with
      | Some (Dir _) => syscall_result (Rmtree p) (Ok tt) (delete p (fs w)) w
      | Some (File _) =>
          syscall_result (Rmtree p)
            (Raise (OtherException ("[Errno 20] Not a directory: '" +:+ p +:+ "'")))
            (fs w) w
      | None =>
          syscall_result (Rmtree p)
            (Raise (FileNotFoundError
                      ("[Errno 2] No such file or directory: '" +:+ p +:+ "'")))
            (fs w) w
      end
  end.

(** [with open(p, "r") as f: f.read()] *)
Definition read_file (p : string) : M string := fun w =>
  match os_fault env (ReadFile p) w with
  | Some e => syscall_result (ReadFile p) (Raise e) (fs w) w
  | None =>
      match fs w !! p with
      | Some (File c) => syscall_result (ReadFile p) (Ok c) (fs w) w
      | Some (Dir _) =>
          syscall_result (ReadFile p)
            (Raise (OtherException ("[Errno 21] Is a directory: '" +:+ p +:+ "'")))
            (fs w) w
      | None =>
          syscall_result (ReadFile p)
            (Raise (FileNotFoundError
                      ("[Errno 2] No such file or directory: '" +:+ p +:+ "'")))
            (fs w) w
      end
  end.

(** [with open(p, "w") as f: f.write(content)] *)
Definition write_file (p content : string) : M unit := fun w =>
  match os_fault env (WriteFile p content) w with
  | Some e => syscall_result (WriteFile p content) (Raise e) (fs w) w
  | None =>
      match fs w !! p with
      | Some (Dir _) =>
          syscall_result (WriteFile p content)
            (Raise (OtherException ("[Errno 21] Is a directory: '" +:+ p +:+ "'")))
            (fs w) w
      | _ =>
          syscall_result (WriteFile p content) (Ok tt)
            (<[p := File content]> (fs w)) w
      end
  end.

(** [json.load(f)] on the text read from [f] *)
Definition json_load (text : string) : M Json := fun w => (json_loads env text, w).

(** *** [is_git_repository] (lines 46-64) *)

Definition is_git_repository (path : string) : M bool :=
  try_except
    (has_git ← gets (fun fs => os_path_isdir_in fs path ".git");
     if has_git : bool then mret true
     else
       result ← subprocess_run ["git"; "rev-parse"; "--is-inside-work-tree"]
                  (Some path) false;
       if (returncode result =? 0) && String.eqb (strip (stdout result)) "true"
       then mret true
       else mret false)
    (fun e =>
       match e with
       | FileNotFoundError _ => mret false
       | _ =>
           logging ERROR ("Error checking git repository: " +:+ exn_str e);;
           mret false
       end).

(** *** [clone_repository] (lines 67-81) *)

Definition clone_repository (repo_url destination_path : string) : M unit :=
  try_except
    (logging INFO ("Cloning repository: " +:+ repo_url +:+ " to " +:+ destination_path);;
     subprocess_run ["git"; "clone"; repo_url; destination_path] None true;;
     logging INFO ("Repository cloned successfully to: " +:+ destination_path))
    (fun e =>
       match e with
       | CalledProcessError _ _ err =>
           logging ERROR ("Error cloning repository: " +:+ err);; raise e
       | FileNotFoundError _ =>
           logging ERROR "Git is not installed. Please install git.";; raise e
       | _ =>
           logging ERROR ("An unexpected error occurred: " +:+ exn_str e);; raise e
       end).

(** *** The adapters (lines 83-166) *)

Definition secrets_command (target : string) : list string :=
  ["detect-secrets"; "scan"; "--json"; SECRETS_REPORT_FILENAME; target].

Definition nuclei_command (target : string) : list string :=
  ["nuclei"; "-u"; target; "-json"; "-o"; VULN_REPORT_FILENAME].

Definition testssl_command (target : string) : list string :=
  ["testssl.sh"; "--jsonfile"; VULN_REPORT_FILENAME; target].

Definition scan_secrets (target : string) : M bool :=
  logging INFO ("Scanning for secrets in: " +:+ target);;
  try_except
    (result ← subprocess_run (secrets_command target) None false;
     (if negb (returncode result =? 0)
         && negb (contains "No secrets found!" (stderr result))
      then logging WARNING
             ("detect-secrets returned a non-zero exit code: "
              +:+ pretty (returncode result) +:+ ". Error Output: "
              +:+ stderr result)
      else if contains "No secrets found!" (stderr result)
      then logging INFO "No secrets found in the repository.";;
           write_file SECRETS_REPORT_FILENAME (json_dumps env None (JDict []))
      else mret tt);;
     logging INFO "Secret scanning completed.";;
     mret true)
    (fun e =>
       match e with
       | FileNotFoundError _ =>
           logging ERROR
             "detect-secrets not found. Please install it: pip install detect-secrets";;
           mret false
       | CalledProcessError _ _ err =>
           logging ERROR ("Error running detect-secrets: " +:+ err);; mret false
       | _ =>
           logging ERROR
             ("An unexpected error occurred during secret scanning: " +:+ exn_str e);;
           mret false
       end).

Definition run_nuclei (target : string) : M bool :=
  logging INFO ("Running Nuclei against: " +:+ target);;
  try_except
    (if negb (is_url target)
     then logging WARNING
            ("Target " +:+ target +:+
             " doesn't appear to be a URL.  Skipping Nuclei scan.  Consider prepending with http:// or https://");;
          mret false
     else
       result ← subprocess_run (nuclei_command target) None false;
       (if negb (returncode result =? 0)
        then logging WARNING
               ("Nuclei returned a non-zero exit code: "
                +:+ pretty (returncode result) +:+ ". Error Output: "
                +:+ stderr result)
        else logging INFO
               ("Nuclei scan completed. Output saved to " +:+ VULN_REPORT_FILENAME));;
       mret true)
    (fun e =>
       match e with
       | FileNotFoundError _ =>
           logging ERROR
             "Nuclei not found. Please install it: refer to projectnuclei.io";;
           mret false
       | CalledProcessError _ _ err =>
           logging ERROR ("Error running Nuclei: " +:+ err);; mret false
       | _ =>
           logging ERROR
             ("An unexpected error occurred during Nuclei scan: " +:+ exn_str e);;
           mret false
       end).

Definition run_testssl (target : string) : M bool :=
  logging INFO ("Running testssl.sh against: " +:+ target);;
  try_except
    (result ← subprocess_run (testssl_command target) None false;
     (if negb (returncode result =? 0)
      then logging WARNING
             ("testssl.sh returned a non-zero exit code: "
              +:+ pretty (returncode result) +:+ ". Error output: "
              +:+ stderr result)
      else logging INFO
             ("testssl.sh scan completed. Output saved to " +:+ VULN_REPORT_FILENAME));;
     mret true)
    (fun e =>
       match e with
       | FileNotFoundError _ =>
           logging ERROR
             "testssl.sh not found.  Ensure it's installed and in your PATH.";;
           mret false
       | CalledProcessError _ _ err =>
           logging ERROR ("Error running testssl.sh: " +:+ err);; mret false
       | _ =>
           logging ERROR
             ("An unexpected error occurred during testssl.sh scan: " +:+ exn_str e);;
           mret false
       end).

(** *** [consolidate_reports] (lines 169-203) *)

Definition secrets_not_run : Json :=
  JDict [("status", JStr "No secrets scan performed or no secrets found.")].

Definition vuln_not_run : Json :=
  JDict [("status", JStr "No vulnerability scans performed.")].

Definition vuln_decode_failure : Json :=
  JDict [("error",
          JStr "Failed to decode vulnerability report.  Check logs for details.")].

(** Lines 174-191: the [consolidated_data] the two raw files give. *)
Definition build_report : M (list (string * Json)) :=
  let consolidated_data := [] in
  (* Load secrets report *)
  present ← gets (fun fs => os_path_exists fs SECRETS_REPORT_FILENAME);
  consolidated_data ←
    (if present : bool
     then text ← read_file SECRETS_REPORT_FILENAME;
          j ← json_load text;
          mret (dict_set "secrets" j consolidated_data)
     else mret (dict_set "secrets" secrets_not_run consolidated_data));
  (* Load vulnerability report *)
  present ← gets (fun fs => os_path_exists fs VULN_REPORT_FILENAME);
  if present : bool
  then text ← read_file VULN_REPORT_FILENAME;
       try_except
         (j ← json_load text;
          mret (dict_set "vulnerabilities" j consolidated_data))
         (fun e =>
            match e with
            | JSONDecodeError _ =>
                logging ERROR
                  ("Error decoding vulnerability report: " +:+ exn_str e
                   +:+ ".  The file might be invalid JSON or empty.");;
                mret (dict_set "vulnerabilities" vuln_decode_failure
                        consolidated_data)
            | _ => raise e
            end)
  else mret (dict_set "vulnerabilities" vuln_not_run consolidated_data).

Definition consolidate_reports (output_filename : string) : M unit :=
  logging INFO "Consolidating reports...";;
  try_except
    (consolidated_data ← build_report;
     (* Write consolidated report to file *)
     write_file output_filename (json_dumps env (Some 4%nat) (JDict consolidated_data));;
     logging INFO ("Consolidated report saved to: " +:+ output_filename))
    (fun e =>
       match e with
       | FileNotFoundError _ =>
           logging ERROR ("Report file not found: " +:+ exn_str e)
       | _ =>
           logging ERROR
             ("An error occurred during report consolidation: " +:+ exn_str e)
       end).

(** *** [perform_scan] (lines 205-267) *)

Definition ALL_TOOLS : list string := ["detect-secrets"; "nuclei"; "testssl.sh"].

(** Lines 226-229, on the path the resolution chose; [None] is the
    [return False]. *)
Definition check_git (scan_target : string) : M (option string) :=
  is_repo ← is_git_repository scan_target;
  if is_repo : bool then mret (Some scan_target)
  else
    logging ERROR ("Target '" +:+ scan_target +:+ "' is not a valid git repository.");;
    mret None.

(** Lines 211-229: the path to scan, [None] where the code returns [False]. *)
Definition resolve_target (target : string) : M (option string) :=
  if is_url target
  then
    logging INFO ("Target '" +:+ target +:+ "' looks like a remote URL - attempting to clone.");;
    let temp_dir := "temp_repo" in
    os_makedirs temp_dir;;
    clone_repository target temp_dir;;
    check_git temp_dir
  else
    is_dir ← gets (fun fs => os_path_isdir fs target);
    if is_dir : bool
    then
      logging INFO ("Target '" +:+ target +:+ "' is a local directory - using it directly.");;
      check_git target
    else
      logging ERROR
        ("Invalid target: " +:+ target +:+
         ". Must be a valid directory path or a remote git URL.");;
      mret None.

(** Lines 231-254: the tools, on a resolved target. *)
Definition run_tools (target scan_target : string) (tools : option (list string))
  : M bool :=
  let tools :=
    match tools with
    | None | Some [] => ALL_TOOLS
    | Some ts => ts
    end in
  (if mem "detect-secrets" tools then scan_secrets scan_target;; mret tt
   else mret tt);;
  (if mem "nuclei" tools
   then
     applicable ← gets (fun fs => is_url target || os_path_isdir fs target);
     if applicable : bool
     then if is_url target then run_nuclei target;; mret tt
          else logging INFO "Skipping Nuclei execution because target is not a URL."
     else mret tt
   else mret tt);;
  (if mem "testssl.sh" tools
   then if is_url target then run_testssl target;; mret tt
        else logging INFO "Skipping testssl.sh as it only supports URLs."
   else mret tt);;
  mret true.

(** The [try] block with its [except Exception] (lines 209-258). *)
Definition scan_body (target : string) (tools : option (list string)) : M bool :=
  try_except
    (resolved ← resolve_target target;
     match resolved with
     | None => mret false
     | Some scan_target => run_tools target scan_target tools
     end)
    (fun e =>
       logging ERROR ("An error occurred during the scan: " +:+ exn_str e);;
       mret false).

(** The [finally] block (lines 259-267). *)
Definition cleanup (temp_dir : option string) : M unit :=
  match temp_dir with
  | None => mret tt
  | Some d =>
      present ← gets (fun fs => os_path_exists fs d);
      if present : bool
      then
        try_except
          (shutil_rmtree d;;
           logging INFO ("Cleaned up temporary directory: " +:+ d))
          (fun e =>
             logging ERROR
               ("Failed to remove temporary directory: " +:+ d +:+
                ".  Manual removal may be needed. Error: " +:+ exn_str e))
      else mret tt
  end.

(** [temp_dir] is [None] from line 207 and ["temp_repo"] from line 214 on,
    which the URL branch reaches before any statement that can raise. *)
Definition temp_dir_of (target : string) : option string :=
  if is_url target then Some "temp_repo" else None.

Definition perform_scan (target : string) (tools : option (list string)) : M bool :=
  fun w =>
    let (r, w1) := scan_body target tools w in
    let (_, w2) := cleanup (temp_dir_of target) w1 in
    (r, w2).

(** *** The [schedule] package, as far as the program uses it

    The package is not part of the repository.  [schedule.every()] makes a
    [Job] of interval 1; its properties [day] and [week] set the unit, and
    [Job] has no attribute [month]; [do] computes the first run as now plus
    the period and appends the job to the scheduler's list; [run_pending]
    runs the jobs whose time has come and schedules each again. *)

Record job : Type := mkJob {
  job_period : Z;                       (* seconds *)
  next_run : Z;
  job_target : string;                  (* the closure of [scheduled_job] *)
  job_tools : option (list string)
}.

Definition job_unit (attr : string) : res Z :=
  if String.eqb attr "day" then Ok 86400
  else if String.eqb attr "week" then Ok 604800
  else Raise (AttributeError ("'Job' object has no attribute '" +:+ attr +:+ "'")).

Definition datetime_now : M Z := fun w => (Ok (clock env w), w).

(** [schedule.every().<attr>.do(scheduled_job)] *)
Definition schedule_every_do (attr target : string) (tools : option (list string))
  (jobs : list job) : M (list job) :=
  match job_unit attr with
  | Ok period =>
      now ← datetime_now;
      mret (jobs ++ [mkJob period (now + period) target tools])%list
  | Raise e => raise e
  end.

Definition time_sleep (seconds : Z) : M unit :=
  fun w => (Ok tt, emit (Sys (Sleep seconds) true) w).

(** *** [schedule_scan] (lines 269-296) and [main] (lines 305-315) *)

Definition DEFAULT_OUTPUT : string := "consolidated_report.json".

(** Lines 272-278. *)
Definition scheduled_job (target : string) (tools : option (list string)) : M unit :=
  logging INFO ("Starting scheduled scan for target: " +:+ target);;
  ok ← perform_scan target tools;
  if ok : bool
  then
    logging INFO ("Scheduled scan for target: " +:+ target +:+ " completed successfully.");;
    consolidate_reports DEFAULT_OUTPUT
  else logging ERROR ("Scheduled scan for target: " +:+ target +:+ " failed.").

(** [schedule.run_pending()] *)
Fixpoint run_pending (jobs : list job) : M (list job) :=
  match jobs with
  | [] => mret []
  | j :: rest =>
      j' ← (now ← datetime_now;
            if next_run j <=? now
            then scheduled_job (job_target j) (job_tools j);;
                 now' ← datetime_now;
                 mret (mkJob (job_period j) (now' + job_period j)
                         (job_target j) (job_tools j))
            else mret j);
      rest' ← run_pending rest;
      mret (j' :: rest')
  end.

(** Lines 294-296, [fuel] turns of the [while True]; the result [None] is
    "still in the loop". *)
Fixpoint polling_loop (fuel : nat) (jobs : list job) : M (option unit) :=
  match fuel with
  | O => mret None
  | S fuel' =>
      jobs' ← run_pending jobs;
      time_sleep 60;;
      polling_loop fuel' jobs'
  end.

(** [Some tt] is a return; [None] is "still in the loop after [fuel] turns". *)
Definition schedule_scan (fuel : nat) (target schedule_type : string)
  (tools : option (list string)) : M (option unit) :=
  registered ←
    (if String.eqb schedule_type "daily"
     then jobs ← schedule_every_do "day" target tools []; mret (Some jobs)
     else if String.eqb schedule_type "weekly"
     then jobs ← schedule_every_do "week" target tools []; mret (Some jobs)
     else if String.eqb schedule_type "monthly"
     then jobs ← schedule_every_do "month" target tools []; mret (Some jobs)
     else if String.eqb schedule_type "once"
     then scheduled_job target tools;; mret None
     else logging ERROR ("Invalid schedule type: " +:+ schedule_type);; mret None);
  match registered with
  | None => mret (Some tt)
  | Some jobs =>
      logging INFO ("Scan scheduled for target: " +:+ target +:+
                    " with schedule: " +:+ schedule_type);;
      polling_loop fuel jobs
  end.

(** The [scan] command of [main]. *)
Definition main_scan (fuel : nat) (target schedule_type : string)
  (tools : option (list string)) : M (option unit) :=
  try_except
    (if String.eqb schedule_type "once"
     then
       ok ← perform_scan target tools;
       (if ok : bool then consolidate_reports DEFAULT_OUTPUT
        else logging ERROR "Scan failed.");;
       mret (Some tt)
     else schedule_scan fuel target schedule_type tools)
    (fun e => logging ERROR ("An error occurred: " +:+ exn_str e);; mret (Some tt)).

End Program.

(** ** A concrete environment for the closed examples

    [PyJson] is a codec for JSON over ASCII text: the grammar of
    [json.loads] (objects, arrays, strings with their escapes, numbers,
    the three literals and the three float names) and the layout of
    [json.dumps] with and without [indent].  A float keeps its literal,
    error messages carry no position, and an escape for a code point
    above 127 is reported as not modelled.  The theorems do not depend on
    it: it only gives the examples an environment to run in. *)

Module PyJson.

Definition not_modelled {A : Type} : res A :=
  Raise (OtherException "PyJson: not modelled").

Definition decode_error {A : Type} (msg : string) : res A :=
  Raise (JSONDecodeError msg).

(** The double quote and the backslash. *)
Definition dquote : ascii := ascii_of_nat 34.
Definition backslash : ascii := ascii_of_nat 92.

Definition is_ws (c : ascii) : bool :=
  match nat_of_ascii c with
  | 32%nat | 9%nat | 10%nat | 13%nat => true
  | _ => false
  end.

Fixpoint skip_ws (s : string) : string :=
  match s with
  | String c r => if is_ws c then skip_ws r else s
  | EmptyString => s
  end.

Definition is_digit (c : ascii) : bool :=
  let n := nat_of_ascii c in ((48 <=? n) && (n <=? 57))%nat.

Definition digit_val (c : ascii) : Z := Z.of_nat (nat_of_ascii c) - 48.

(** The longest run of digits at the head of [s], and what follows. *)
Fixpoint take_digits (s : string) : string * string :=
  match s with
  | String c r =>
      if is_digit c then let (d, r') := take_digits r in (String c d, r')
      else (EmptyString, s)
  | EmptyString => (EmptyString, s)
  end.

Fixpoint digits_val (acc : Z) (s : string) : Z :=
  match s with
  | String c r => digits_val (10 * acc + digit_val c) r
  | EmptyString => acc
  end.

Definition hex_val (c : ascii) : option Z :=
  let n := nat_of_ascii c in
  if is_digit c then Some (digit_val c)
  else if ((97 <=? n) && (n <=? 102))%nat then Some (Z.of_nat n - 87)
  else if ((65 <=? n) && (n <=? 70))%nat then Some (Z.of_nat n - 55)
  else None.

(** The text of a string literal after its opening quote. *)
Fixpoint parse_string (s : string) : res (string * string) :=
  match s with
  | EmptyString => decode_error "Unterminated string starting at"
  | String c r =>
      if Ascii.eqb c dquote then Ok (EmptyString, r)
      else if Ascii.eqb c backslash then
        match r with
        | String e r' =>
            let simple (x : ascii) :=
              match parse_string r' with
              | Ok (t, rest) => Ok (String x t, rest)
              | Raise err => Raise err
              end in
            if Ascii.eqb e dquote then simple dquote
            else if Ascii.eqb e backslash then simple backslash
            else if Ascii.eqb e "/" then simple "/"%char
            else if Ascii.eqb e "b" then simple (ascii_of_nat 8)
            else if Ascii.eqb e "f" then simple (ascii_of_nat 12)
            else if Ascii.eqb e "n" then simple (ascii_of_nat 10)
            else if Ascii.eqb e "r" then simple (ascii_of_nat 13)
            else if Ascii.eqb e "t" then simple (ascii_of_nat 9)
            else if Ascii.eqb e "u" then
              match r' with
              | String h1 (String h2 (String h3 (String h4 r''))) =>
                  match hex_val h1, hex_val h2, hex_val h3, hex_val h4 with
                  | Some a, Some b, Some c', Some d =>
                      let code := 4096 * a + 256 * b + 16 * c' + d in
                      if code <? 128 then
                        match parse_string r'' with
                        | Ok (t, rest) =>
                            Ok (String (ascii_of_nat (Z.to_nat code)) t, rest)
                        | Raise err => Raise err
                        end
                      else not_modelled
                  | _, _, _, _ => decode_error "Invalid \uXXXX escape"
                  end
              | _ => decode_error "Invalid \uXXXX escape"
              end
            else decode_error "Invalid \escape"
        | EmptyString => decode_error "Unterminated string starting at"
        end
      else if (nat_of_ascii c <? 32)%nat then decode_error "Invalid control character at"
      else if (127 <? nat_of_ascii c)%nat then not_modelled
      else
        match parse_string r with
        | Ok (t, rest) => Ok (String c t, rest)
        | Raise err => Raise err
        end
  end.

(** A number at the head of [s], [neg] when its minus sign was consumed. *)
Definition parse_number (neg : bool) (s : string) : res (Json * string) :=
  let sign := if neg then "-" else EmptyString in
  let after_int (int_digits rest : string) : res (Json * string) :=
    let (frac, rest1) :=
      match rest with
      | String "." r =>
          match take_digits r with
          | (EmptyString, _) => (EmptyString, rest)
          | (d, r') => (String "." d, r')
          end
      | _ => (EmptyString, rest)
      end in
    let exponent (e : ascii) (r : string) : string * string :=
      let (sg, r0) :=
        match r with
        | String "+" r' => ("+", r')
        | String "-" r' => ("-", r')
        | _ => (EmptyString, r)
        end in
      match take_digits r0 with
      | (EmptyString, _) => (EmptyString, rest1)
      | (d, r') => (String e (sg +:+ d), r')
      end in
    let (ex, rest2) :=
      match rest1 with
      | String "e" r => exponent "e"%char r
      | String "E" r => exponent "E"%char r
      | _ => (EmptyString, rest1)
      end in
    match frac, ex with
    | EmptyString, EmptyString =>
        Ok (JInt (if neg then - digits_val 0 int_digits else digits_val 0 int_digits),
            rest2)
    | _, _ => Ok (JFloat (sign +:+ int_digits +:+ frac +:+ ex), rest2)
    end in
  match s with
  | String "0" r => after_int "0" r
  | String c r =>
      if is_digit c then let (d, r') := take_digits s in after_int d r'
      else decode_error "Expecting value"
  | EmptyString => decode_error "Expecting value"
  end.

Definition drop_prefix (p s : string) : option string :=
  if String.prefix p s
  then Some (String.substring (String.length p) (String.length s - String.length p) s)
  else None.

Fixpoint parse_value (fuel : nat) (s : string) {struct fuel} : res (Json * string) :=
  match fuel with
  | O => not_modelled
  | S fuel' =>
      match s with
      | String "{" r =>
          match skip_ws r with
          | String "}" rest => Ok (JDict [], rest)
          | String c r' =>
              if Ascii.eqb c dquote then parse_members fuel' [] r'
              else decode_error "Expecting property name enclosed in double quotes"
          | EmptyString =>
              decode_error "Expecting property name enclosed in double quotes"
          end
      | String "[" r =>
          match skip_ws r with
          | String "]" rest => Ok (JList [], rest)
          | r' => parse_items fuel' [] r'
          end
      | String "-" r =>
          match drop_prefix "Infinity" r with
          | Some rest => Ok (JFloat "-Infinity", rest)
          | None => parse_number true r
          end
      | String c r =>
          if Ascii.eqb c dquote then
            match parse_string r with
            | Ok (t, rest) => Ok (JStr t, rest)
            | Raise e => Raise e
            end
          else
            match drop_prefix "null" s, drop_prefix "true" s, drop_prefix "false" s,
                  drop_prefix "NaN" s, drop_prefix "Infinity" s with
            | Some rest, _, _, _, _ => Ok (JNull, rest)
            | _, Some rest, _, _, _ => Ok (JBool true, rest)
            | _, _, Some rest, _, _ => Ok (JBool false, rest)
            | _, _, _, Some rest, _ => Ok (JFloat "NaN", rest)
            | _, _, _, _, Some rest => Ok (JFloat "Infinity", rest)
            | _, _, _, _, _ => parse_number false s
            end
      | EmptyString => decode_error "Expecting value"
      end
  end

(** The members of an object, after the opening quote of a key. *)
with parse_members (fuel : nat) (acc : list (string * Json)) (s : string)
  {struct fuel} : res (Json * string) :=
  match fuel with
  | O => not_modelled
  | S fuel' =>
      match parse_string s with
      | Raise e => Raise e
      | Ok (key, r) =>
          match skip_ws r with
          | String ":" r1 =>
              match parse_value fuel' (skip_ws r1) with
              | Raise e => Raise e
              | Ok (v, r2) =>
                  let acc' := dict_set key v acc in
                  match skip_ws r2 with
                  | String "}" rest => Ok (JDict acc', rest)
                  | String "," r3 =>
                      match skip_ws r3 with
                      | String c r4 =>
                          if Ascii.eqb c dquote then parse_members fuel' acc' r4
                          else decode_error
                                 "Expecting property name enclosed in double quotes"
                      | EmptyString =>
                          decode_error
                            "Expecting property name enclosed in double quotes"
                      end
                  | _ => decode_error "Expecting ',' delimiter"
                  end
              end
          | _ => decode_error "Expecting ':' delimiter"
          end
      end
  end

(** The items of an array, at the head of an item. *)
with parse_items (fuel : nat) (acc : list Json) (s : string)
  {struct fuel} : res (Json * string) :=
  match fuel with
  | O => not_modelled
  | S fuel' =>
      match parse_value fuel' s with
      | Raise e => Raise e
      | Ok (v, r) =>
          match skip_ws r with
          | String "]" rest => Ok (JList (acc ++ [v])%list, rest)
          | String "," r1 => parse_items fuel' (acc ++ [v])%list (skip_ws r1)
          | _ => decode_error "Expecting ',' delimiter"
          end
      end
  end.

(** [json.loads] *)
Definition loads (text : string) : res Json :=
  match parse_value (S (String.length text)) (skip_ws text) with
  | Raise e => Raise e
  | Ok (v, rest) =>
      match skip_ws rest with
      | EmptyString => Ok v
      | _ => decode_error "Extra data"
      end
  end.

Definition hex_digit (n : Z) : ascii :=
  ascii_of_nat (Z.to_nat (if n <? 10 then 48 + n else 87 + n)).

(** One character of a [str] inside its quotes, [ensure_ascii=True]. *)
Definition escape_char (c : ascii) : string :=
  let n := Z.of_nat (nat_of_ascii c) in
  if Ascii.eqb c dquote then String backslash (String dquote EmptyString)
  else if Ascii.eqb c backslash then "\\"
  else if n =? 10 then "\n"
  else if n =? 13 then "\r"
  else if n =? 9 then "\t"
  else if n =? 8 then "\b"
  else if n =? 12 then "\f"
  else if (n <? 32) || (126 <? n)
  then "\u00" +:+ String (hex_digit (n / 16)) (String (hex_digit (n mod 16)) EmptyString)
  else String c EmptyString.

Fixpoint escape (s : string) : string :=
  match s with
  | String c r => escape_char c +:+ escape r
  | EmptyString => EmptyString
  end.

Definition quote (s : string) : string :=
  String dquote (escape s +:+ String dquote EmptyString).

Fixpoint spaces (n : nat) : string :=
  match n with
  | O => EmptyString
  | S n' => String " " (spaces n')
  end.

(** The line break and indentation before an item at nesting [depth]. *)
Definition newline_indent (indent : option nat) (depth : nat) : string :=
  match indent with
  | Some n => String (ascii_of_nat 10) (spaces (n * depth))
  | None => EmptyString
  end.

Definition item_separator (indent : option nat) (depth : nat) : string :=
  match indent with
  | Some _ => "," +:+ newline_indent indent depth
  | None => ", "
  end.

Fixpoint dumps_at (indent : option nat) (depth : nat) (j : Json) : string :=
  match j with
  | JNull => "null"
  | JBool true => "true"
  | JBool false => "false"
  | JInt n => pretty n
  | JFloat literal => literal
  | JStr s => quote s
  | JList [] => "[]"
  | JList items =>
      "[" +:+ newline_indent indent (S depth)
      +:+ String.concat (item_separator indent (S depth))
            (map (dumps_at indent (S depth)) items)
      +:+ newline_indent indent depth +:+ "]"
  | JDict [] => "{}"
  | JDict members =>
      "{" +:+ newline_indent indent (S depth)
      +:+ String.concat (item_separator indent (S depth))
            (map (fun kv => quote (fst kv) +:+ ": " +:+ dumps_at indent (S depth) (snd kv))
               members)
      +:+ newline_indent indent depth +:+ "}"
  end.

(** [json.dumps(j, indent=indent)] *)
Definition dumps (indent : option nat) (j : Json) : string := dumps_at indent 0 j.

End PyJson.

(** No I/O call is refused. *)
Definition no_fault : syscall -> World -> option exn := fun _ _ => None.

(** A clock that only moves while the program sleeps. *)
Definition slept (tr : list event) : Z :=
  fold_right (fun e acc => match e with Sys (Sleep n) _ => n + acc | _ => acc end) 0 tr.

(** A machine with no external tool installed: every [subprocess.run]
    raises [FileNotFoundError]. *)
Definition bare_run (argv : list string) (cwd : option string) (w : World)
  : proc_result * FS :=
  (SpawnRaises
     (FileNotFoundError
        ("[Errno 2] No such file or directory: '" +:+ hd EmptyString argv +:+ "'")),
   fs w).

Definition bare_env : Env :=
  {| run_process := bare_run; os_fault := no_fault;
     json_loads := PyJson.loads; json_dumps := PyJson.dumps;
     clock := fun w => slept (trace w) |}.

(** A machine with the tools: [git clone] leaves a work tree at the
    destination, [git rev-parse] says no, [detect-secrets] reports no
    secrets, [nuclei] writes an empty finding list (unless a directory is
    in the way), [testssl.sh] fails. *)
Definition lab_run (argv : list string) (cwd : option string) (w : World)
  : proc_result * FS :=
  match argv with
  | tool :: arg :: rest =>
      if String.eqb tool "git" && String.eqb arg "clone" then
        (Exited (mkCompleted 0 EmptyString EmptyString),
         <[List.last (arg :: rest) EmptyString := Dir {[ ".git" := Dir ∅ ]}]> (fs w))
      else if String.eqb tool "git" then
        (Exited (mkCompleted 128 EmptyString "fatal: not a git repository"), fs w)
      else if String.eqb tool "detect-secrets" then
        (Exited (mkCompleted 0 EmptyString "No secrets found!"), fs w)
      else if String.eqb tool "nuclei" then
        (Exited (mkCompleted 0 EmptyString EmptyString),
         if os_path_isdir (fs w) VULN_REPORT_FILENAME then fs w
         else <[VULN_REPORT_FILENAME := File "[]"]> (fs w))
      else if String.eqb tool "testssl.sh" then
        (Exited (mkCompleted 1 EmptyString "Fatal error: non-empty output file exists"), fs w)
      else bare_run argv cwd w
  | _ => bare_run argv cwd w
  end.

Definition lab_env : Env :=
  {| run_process := lab_run; os_fault := no_fault;
     json_loads := PyJson.loads; json_dumps := PyJson.dumps;
     clock := fun w => slept (trace w) |}.

Definition world_of (disk : FS) : World := {| fs := disk; trace := [] |}.

(** ** Where each adapter is told to write *)






(** ** The report, category by category *)

Inductive category : Type := Secrets | Vulnerabilities.

Definition raw_file (c : category) : string :=
  match c with
  | Secrets => SECRETS_REPORT_FILENAME
  | Vulnerabilities => VULN_REPORT_FILENAME
  end.

Definition category_key (c : category) : string :=
  match c with
  | Secrets => "secrets"
  | Vulnerabilities => "vulnerabilities"
  end.

(** What lines 179 and 191 embed for an absent raw file. *)
Definition not_run (c : category) : Json :=
  match c with
  | Secrets => secrets_not_run
  | Vulnerabilities => vuln_not_run
  end.

(** The [consolidated_data] of [build_report] as a function of the two raw
    entries; [None] where [build_report] raises. *)
Definition report_data (env : Env) (s v : option node)
  : option (list (string * Json)) :=
  match
    match s with
    | None => Some secrets_not_run
    | Some (File text) =>
        match json_loads env text with Ok j => Some j | Raise _ => None end
    | Some (Dir _) => None
    end
  with
  | None => None
  | Some sec =>
      match
        match v with
        | None => Some vuln_not_run
        | Some (File text) =>
            match json_loads env text with
            | Ok j => Some j
            | Raise (JSONDecodeError _) => Some vuln_decode_failure
            | Raise _ => None
            end
        | Some (Dir _) => None
        end
      with
      | None => None
      | Some vul => Some [("secrets", sec); ("vulnerabilities", vul)]
      end
  end.

(** The document [consolidate_reports] writes for [data]. *)
Definition document (env : Env) (data : list (string * Json)) : string :=
  json_dumps env (Some 4%nat) (JDict data).

(** The operating system refuses nothing. *)
Definition no_io_fault (env : Env) : Prop :=
  forall c w, os_fault env c w = None.

(** ** Observations on runs *)

(** [emitted P w w']: from [w] to [w'] the trace grew by events that all
    satisfy [P]. *)
Definition emitted (P : event -> Prop) : relation World :=
  fun w w' => exists evs, trace w' = (evs ++ trace w)%list /\ Forall P evs.

(** A successful write of [content] to [p]. *)
Definition wrote (p content : string) (evs : list event) : Prop :=
  In (Sys (WriteFile p content) true) evs.

(** The first line an adapter logs when it is entered. *)
Definition banner (tool : string) : string :=
  if String.eqb tool "detect-secrets" then "Scanning for secrets in: "
  else if String.eqb tool "nuclei" then "Running Nuclei against: "
  else "Running testssl.sh against: ".

(** [tool_event tool e]: [e] is the adapter of [tool] being entered, or the
    program of [tool] being started. *)
Definition tool_event (tool : string) (e : event) : bool :=
  match e with
  | Sys (Spawn (cmd :: _) _) _ => String.eqb cmd tool
  | Log INFO msg => String.prefix (banner tool) msg
  | _ => false
  end.

Definition adapter_event (e : event) : bool :=
  existsb (fun tool => tool_event tool e) ALL_TOOLS.

(** [workspace_event e]: [e] creates or removes a directory, or is a
    [git clone]. *)
Definition workspace_event (e : event) : bool :=
  match e with
  | Sys (Makedirs _) _ | Sys (Rmtree _) _ => true
  | Sys (Spawn (cmd :: sub :: _) _) _ => String.eqb cmd "git" && String.eqb sub "clone"
  | _ => false
  end.

(** The resolution of a target in the words of the specification: a URL
    whose workspace is made, whose clone succeeds and whose clone is a git
    work tree, resolved to the workspace; or a local directory that is a
    git work tree, resolved to itself.  [resolved env target w p w1]: from
    [w] the target resolves to the path [p], leaving the world [w1]. *)
Inductive resolved (env : Env) (target : string) (w : World)
  : string -> World -> Prop :=
  | resolved_remote wa wb w1 :
      is_url target = true ->
      os_makedirs env "temp_repo"
        (emit (Log INFO ("Target '" +:+ target +:+
                         "' looks like a remote URL - attempting to clone.")) w)
      = (Ok tt, wa) ->
      clone_repository env target "temp_repo" wa = (Ok tt, wb) ->
      is_git_repository env "temp_repo" wb = (Ok true, w1) ->
      resolved env target w "temp_repo" w1
  | resolved_local w1 :
      is_url target = false ->
      os_path_isdir (fs w) target = true ->
      is_git_repository env target
        (emit (Log INFO ("Target '" +:+ target +:+
                         "' is a local directory - using it directly.")) w)
      = (Ok true, w1) ->
      resolved env target w target w1.

(** The tools a call asks for, after the default of line 232. *)
Definition requested (tool : string) (tools : option (list string)) : bool :=
  match tools with
  | None | Some [] => mem tool ALL_TOOLS
  | Some ts => mem tool ts
  end.

(** [env] with the answers of [f] to every [shutil.rmtree]. *)
Definition with_rmtree_fault (f : string -> World -> option exn) (env : Env) : Env :=
  {| run_process := run_process env;
     os_fault := fun c w => match c with Rmtree p => f p w | _ => os_fault env c w end;
     json_loads := json_loads env;
     json_dumps := json_dumps env;
     clock := clock env |}.

(** The message of line 267. *)
Definition removal_failed (d : string) (e : exn) : event :=
  Log ERROR ("Failed to remove temporary directory: " +:+ d +:+
             ".  Manual removal may be needed. Error: " +:+ exn_str e).

(** The two tools that need a URL. *)
Definition url_tool_event (e : event) : bool :=
  tool_event "nuclei" e || tool_event "testssl.sh" e.

(** The skips of lines 244 and 250. *)
Definition skip_nuclei : event :=
  Log INFO "Skipping Nuclei execution because target is not a URL.".

Definition skip_testssl : event :=
  Log INFO "Skipping testssl.sh as it only supports URLs.".

(** No external process removes the directory [target]. *)
Definition leaves_directory (env : Env) (target : string) : Prop :=
  forall argv cwd w,
    os_path_isdir (fs w) target = true ->
    os_path_isdir (snd (run_process env argv cwd w)) target = true.

(** [still_dir p w w']: if [p] is a directory in [w], it is one in [w']. *)
Definition still_dir (p : string) : relation World :=
  fun w w' => os_path_isdir (fs w) p = true -> os_path_isdir (fs w') p = true.


(** [quiet e]: [e] is no adapter being entered and no tool being started. *)
Definition quiet (e : event) : Prop := adapter_event e = false.

(** Lines 236-237. *)
Definition secrets_step env scan_target tools : M unit :=
  if requested "detect-secrets" tools then scan_secrets env scan_target;; mret tt
  else mret tt.

(** How often [scheduled_job] was started. *)
Definition firings (tr : list event) : nat :=
  length (List.filter (fun e => match e with
                           | Log INFO msg =>
                               String.prefix "Starting scheduled scan for target: " msg
                           | _ => false
                           end) tr).

(** A disk with a git work tree at ["repo"]. *)
Definition repo_disk : FS := {[ "repo" := Dir {[ ".git" := Dir ∅ ]} ]}.


Definition sample_url : string := "https://example.org/r.git".

(** ** More vocabulary: commands, steps and sample machines *)

Definition GIT_REV_PARSE : list string :=
  ["git"; "rev-parse"; "--is-inside-work-tree"].

(** The text of the given UTF-8 bytes. *)
Definition utf8 (bytes : list nat) : string :=
  string_of_list_ascii (map ascii_of_nat bytes).

(** Every character of [s] is white space. *)
Fixpoint all_space (s : string) : bool :=
  match s with
  | String c rest => is_space c && all_space rest
  | EmptyString => true
  end.

Definition GIT_CLONE (repo_url destination_path : string) : list string :=
  ["git"; "clone"; repo_url; destination_path].

(** The world in which [clone_repository] starts [git]. *)
Definition cloning (repo_url destination_path : string) (w : World) : World :=
  emit (Log INFO ("Cloning repository: " +:+ repo_url +:+ " to " +:+ destination_path)) w.





(** The world in which an adapter starts its tool. *)
Definition entered (tool target : string) (w : World) : World :=
  emit (Log INFO (banner tool +:+ target)) w.

(** The empty findings document of lines 96-97. *)
Definition EMPTY_FINDINGS (env : Env) : string := json_dumps env None (JDict []).

(** The path the adapters of a scan of [target] are given. *)
Definition scan_path (target : string) : string :=
  if is_url target then "temp_repo" else target.

(** The processes a scan of [target] may start, each with its working
    directory. *)
Definition scan_commands (target : string) : list (list string * option string) :=
  if is_url target
  then [(GIT_CLONE target "temp_repo", None);
        (GIT_REV_PARSE, Some "temp_repo");
        (secrets_command "temp_repo", None);
        (nuclei_command target, None);
        (testssl_command target, None)]
  else [(GIT_REV_PARSE, Some target);
        (secrets_command target, None)].

Definition expected_process (target : string) (e : event) : Prop :=
  match e with
  | Sys (Spawn argv cwd) _ => In (argv, cwd) (scan_commands target)
  | _ => True
  end.

Definition no_process (e : event) : Prop :=
  match e with
  | Sys (Spawn _ _) _ => False
  | _ => True
  end.

(** What a consolidation may do: log, read one of the two raw reports,
    write the output file. *)
Definition report_io (output_filename : string) (e : event) : Prop :=
  match e with
  | Log _ _ => True
  | Sys (ReadFile p) _ => p = SECRETS_REPORT_FILENAME \/ p = VULN_REPORT_FILENAME
  | Sys (WriteFile p _) _ => p = output_filename
  | _ => False
  end.

Definition awake (e : event) : Prop :=
  match e with
  | Sys (Sleep _) _ => False
  | _ => True
  end.

(** [started argv w w']: between [w] and [w'] the program started the
    process [argv]. *)
Definition started (argv : list string) : relation World :=
  fun w w' =>
    exists evs, trace w' = (evs ++ trace w)%list /\
                exists ok, In (Sys (Spawn argv None) ok) evs.

Definition grows : relation World := emitted (fun _ => True).

(** Lines 240-244 and 246-250, on their own. *)
Definition nuclei_step env target tools : M unit :=
  if requested "nuclei" tools
  then
    applicable ← gets (fun fs => is_url target || os_path_isdir fs target);
    if applicable : bool
    then if is_url target then run_nuclei env target;; mret tt
         else logging INFO "Skipping Nuclei execution because target is not a URL."
    else mret tt
  else mret tt.

Definition testssl_step env target tools : M unit :=
  if requested "testssl.sh" tools
  then if is_url target then run_testssl env target;; mret tt
       else logging INFO "Skipping testssl.sh as it only supports URLs."
  else mret tt.

Definition newline : string := String (ascii_of_nat 10) EmptyString.

(** A machine where [git rev-parse] says yes, as [git] prints it, and
    nothing else is installed. *)
Definition git_run (argv : list string) (cwd : option string) (w : World)
  : proc_result * FS :=
  if String.eqb (hd EmptyString argv) "git"
  then (Exited (mkCompleted 0 ("true" +:+ newline) EmptyString), fs w)
  else bare_run argv cwd w.

Definition git_env : Env :=
  {| run_process := git_run; os_fault := no_fault;
     json_loads := PyJson.loads; json_dumps := PyJson.dumps;
     clock := fun w => slept (trace w) |}.

(** A machine with [git] and none of the three tools: the clone leaves a
    work tree, and every adapter fails to start its tool. *)
Definition git_only_run (argv : list string) (cwd : option string) (w : World)
  : proc_result * FS :=
  if String.eqb (hd EmptyString argv) "git"
  then lab_run argv cwd w
  else bare_run argv cwd w.

Definition git_only_env : Env :=
  {| run_process := git_only_run; os_fault := no_fault;
     json_loads := PyJson.loads; json_dumps := PyJson.dumps;
     clock := fun w => slept (trace w) |}.

(** A machine where every tool starts and fails. *)
Definition failing_run (argv : list string) (cwd : option string) (w : World)
  : proc_result * FS :=
  (Exited (mkCompleted 2 EmptyString "boom"), fs w).

Definition failing_env : Env :=
  {| run_process := failing_run; os_fault := no_fault;
     json_loads := PyJson.loads; json_dumps := PyJson.dumps;
     clock := fun w => slept (trace w) |}.

(** A disk with a regular file where the workspace would go. *)
Definition blocked_disk : FS := {[ "temp_repo" := File "not a directory" ]}.

(** A disk with both raw reports. *)
Definition reports_disk : FS :=
  {[ SECRETS_REPORT_FILENAME := File "{}";
     VULN_REPORT_FILENAME := File "[1, 2]" ]}.

(** ** Reasoning about computations *)

Lemma bind_inv {A B : Type} (m : M A) (f : A -> M B) w r w' :
  (m ≫= f) w = (r, w') ->
  (exists a w1, m w = (Ok a, w1) /\ f a w1 = (r, w')) \/
  (exists e, m w = (Raise e, w') /\ r = Raise e).
Proof.
  unfold mbind, M_bind. destruct (m w) as [[a | e] w1]; intros H.
  - left. eauto.
  - right. inversion H; subst. eauto.
Qed.

Lemma try_except_inv {A : Type} (m : M A) (h : exn -> M A) w r w' :
  try_except m h w = (r, w') ->
  (exists a, m w = (Ok a, w') /\ r = Ok a) \/
  (exists e w1, m w = (Raise e, w1) /\ h e w1 = (r, w')).
Proof.
  unfold try_except. destruct (m w) as [[a | e] w1]; intros H.
  - left. inversion H; subst. eauto.
  - right. eauto.
Qed.

(** [always R m]: every run of [m] takes a world to an [R]-related one. *)
Definition always {A : Type} (R : relation World) (m : M A) : Prop :=
  forall w r w', m w = (r, w') -> R w w'.

(** [total m]: [m] never raises. *)
Definition total {A : Type} (m : M A) : Prop :=
  forall w, exists a, fst (m w) = Ok a.

(** [returns a m]: [m] never raises and its value is [a]. *)
Definition returns {A : Type} (a : A) (m : M A) : Prop :=
  forall w, fst (m w) = Ok a.

(** *** The disk *)

Lemma disk_lookup_insert_eq (disk : Disk) p n : <[p := n]> disk !! p = Some n.
Proof. unfold lookup, disk_lookup, insert, disk_insert. simpl. apply lookup_insert_eq. Qed.

Lemma disk_lookup_insert_same (disk : Disk) p q n :
  same_file disk p q -> <[p := n]> disk !! q = Some n.
Proof.
  unfold same_file, lookup, disk_lookup, insert, disk_insert. simpl.
  intros <-. apply lookup_insert_eq.
Qed.

Lemma disk_lookup_insert_ne (disk : Disk) p q n :
  ~ same_file disk p q -> <[p := n]> disk !! q = disk !! q.
Proof.
  unfold same_file, lookup, disk_lookup, insert, disk_insert. simpl.
  intros H. by apply lookup_insert_ne.
Qed.

Lemma disk_lookup_same (disk : Disk) p q :
  same_file disk p q -> disk !! p = disk !! q.
Proof. unfold same_file, lookup, disk_lookup. by intros ->. Qed.

Lemma disk_lookup_delete_eq (disk : Disk) p : delete p disk !! p = None.
Proof. unfold lookup, disk_lookup, delete, disk_delete. simpl. apply lookup_delete_eq. Qed.

Lemma disk_insert_insert_eq (disk : Disk) p n1 n2 :
  <[p := n1]> (<[p := n2]> disk) = <[p := n1]> disk.
Proof.
  unfold insert, disk_insert. simpl. f_equal. apply insert_insert_eq.
Qed.

Lemma same_file_insert (disk : Disk) k n p q :
  same_file (<[k := n]> disk) p q <-> same_file disk p q.
Proof. reflexivity. Qed.

#[global] Instance same_file_dec disk p q : Decision (same_file disk p q).
Proof. unfold same_file. apply _. Defined.

Section Rules.

Context (env : Env) (R : relation World) `{!PreOrder R}.

Lemma always_ret {A : Type} (a : A) : always R (mret a).
Proof. intros w r w' H. inversion H; subst. reflexivity. Qed.

Lemma always_raise {A : Type} (e : exn) : always R (raise (A := A) e).
Proof. intros w r w' H. inversion H; subst. reflexivity. Qed.

Lemma always_gets {A : Type} (f : FS -> A) : always R (gets f).
Proof. intros w r w' H. inversion H; subst. reflexivity. Qed.

Lemma always_bind {A B : Type} (m : M A) (f : A -> M B) :
  always R m -> (forall a, always R (f a)) -> always R (m ≫= f).
Proof.
  intros Hm Hf w r w' H. apply bind_inv in H as [(a & w1 & H1 & H2) | (e & H1 & _)].
  - transitivity w1; [eapply Hm | eapply Hf]; eauto.
  - eapply Hm; eauto.
Qed.

Lemma always_try_except {A : Type} (m : M A) (h : exn -> M A) :
  always R m -> (forall e, always R (h e)) -> always R (try_except m h).
Proof.
  intros Hm Hh w r w' H.
  apply try_except_inv in H as [(a & H1 & _) | (e & w1 & H1 & H2)].
  - eapply Hm; eauto.
  - transitivity w1; [eapply Hm | eapply Hh]; eauto.
Qed.

Lemma always_logging lvl msg :
  (forall w, R w (emit (Log lvl msg) w)) -> always R (logging lvl msg).
Proof. intros HR w r w' H. inversion H; subst. apply HR. Qed.

Lemma always_json_load text : always R (json_load env text).
Proof. intros w r w' H. inversion H; subst. reflexivity. Qed.

Lemma always_datetime_now : always R (datetime_now env).
Proof. intros w r w' H. inversion H; subst. reflexivity. Qed.

Lemma always_time_sleep n :
  (forall w, R w (emit (Sys (Sleep n) true) w)) -> always R (time_sleep n).
Proof. intros HR w r w' H. inversion H; subst. apply HR. Qed.

(** A call that leaves the disk alone. *)
Definition kept (c : syscall) : Prop :=
  forall w ok, R w {| fs := fs w; trace := Sys c ok :: trace w |}.

Lemma always_subprocess_run argv cwd check :
  (forall w ok, R w {| fs := snd (run_process env argv cwd w);
                       trace := Sys (Spawn argv cwd) ok :: trace w |}) ->
  always R (subprocess_run env argv cwd check).
Proof.
  intros HR w r w' H. unfold subprocess_run, syscall_result in H.
  specialize (HR w). destruct (run_process env argv cwd w) as [[c | e] fs'].
  - destruct (check && negb (returncode c =? 0)); inversion H; subst; apply HR.
  - inversion H; subst; apply HR.
Qed.

Lemma always_os_makedirs p :
  kept (Makedirs p) ->
  (forall w, fs w !! p = None ->
     R w {| fs := <[p := Dir ∅]> (fs w); trace := Sys (Makedirs p) true :: trace w |}) ->
  always R (os_makedirs env p).
Proof.
  intros Hk HR w r w' H. unfold os_makedirs, syscall_result in H.
  destruct (os_fault env (Makedirs p) w); [inversion H; subst; apply Hk |].
  destruct (fs w !! p) as [[c | d] |] eqn:E; inversion H; subst;
    first [apply Hk | by apply HR].
Qed.

Lemma always_shutil_rmtree p :
  kept (Rmtree p) ->
  (forall w, os_path_isdir (fs w) p = true ->
     R w {| fs := delete p (fs w); trace := Sys (Rmtree p) true :: trace w |}) ->
  always R (shutil_rmtree env p).
Proof.
  intros Hk HR w r w' H. unfold shutil_rmtree, syscall_result in H.
  destruct (os_fault env (Rmtree p) w); [inversion H; subst; apply Hk |].
  destruct (fs w !! p) as [[c | d] |] eqn:E; inversion H; subst;
    first [apply Hk | apply HR; unfold os_path_isdir; by rewrite E].
Qed.

Lemma always_read_file p : kept (ReadFile p) -> always R (read_file env p).
Proof.
  intros Hk w r w' H. unfold read_file, syscall_result in H.
  destruct (os_fault env (ReadFile p) w); [inversion H; subst; apply Hk |].
  destruct (fs w !! p) as [[c | d] |]; inversion H; subst; apply Hk.
Qed.

Lemma always_write_file p c :
  kept (WriteFile p c) ->
  (forall w, os_path_isdir (fs w) p = false ->
     R w {| fs := <[p := File c]> (fs w); trace := Sys (WriteFile p c) true :: trace w |}) ->
  always R (write_file env p c).
Proof.
  intros Hk HR w r w' H. unfold write_file, syscall_result in H.
  destruct (os_fault env (WriteFile p c) w); [inversion H; subst; apply Hk |].
  destruct (fs w !! p) as [[c' | d] |] eqn:E; inversion H; subst;
    first [apply Hk | apply HR; unfold os_path_isdir; by rewrite E].
Qed.

End Rules.

#[global] Instance emitted_preorder P : PreOrder (emitted P).
Proof.
  split.
  - intros w. exists []. split; [reflexivity | constructor].
  - intros w1 w2 w3 (e1 & H1 & F1) (e2 & H2 & F2).
    exists (e2 ++ e1)%list. split.
    + rewrite H2, H1. apply app_assoc.
    + apply Forall_app. split; assumption.
Qed.

Lemma grew_nil (t : list event) (P : list event -> Prop) :
  P [] -> exists evs, t = (evs ++ t)%list /\ P evs.
Proof. intros H. exists []. split; [reflexivity | exact H]. Qed.

Lemma grew_cons (e : event) (t t' : list event) (P : list event -> Prop) :
  (exists evs, t' = (evs ++ t)%list /\ P (e :: evs)) ->
  exists evs, e :: t' = (evs ++ t)%list /\ P evs.
Proof. intros (evs & -> & H). exists (e :: evs). split; [reflexivity | exact H]. Qed.

Ltac grew := repeat apply grew_cons; apply grew_nil.

(** ** The consolidator *)

Ltac run_all :=
  unfold consolidate_reports, build_report, report_data, mbind, M_bind, mret, M_ret,
    gets, read_file, write_file, json_load, try_except, syscall_result,
    os_path_exists, os_path_isdir, logging, raise, emit;
  simpl.

Lemma build_report_run env w r w1 :
  build_report env w = (r, w1) ->
  fs w1 = fs w /\
  (exists evs, trace w1 = (evs ++ trace w)%list /\ forall p c, ~ wrote p c evs) /\
  forall data, r = Ok data ->
    report_data env (fs w !! SECRETS_REPORT_FILENAME) (fs w !! VULN_REPORT_FILENAME)
    = Some data.
Proof.
  unfold wrote. run_all. intros H.
  repeat (case_match; simplify_eq/=; try done);
    (split; [reflexivity |]);
    (split; [grew; intros p c; simpl; intuition discriminate |]);
    intros data Hd; by simplify_eq.
Qed.

Lemma write_file_run env p c w r w' :
  write_file env p c w = (r, w') ->
  (r = Ok tt /\ os_path_isdir (fs w) p = false /\
   w' = {| fs := <[p := File c]> (fs w); trace := Sys (WriteFile p c) true :: trace w |})
  \/
  (exists e, r = Raise e /\
   w' = {| fs := fs w; trace := Sys (WriteFile p c) false :: trace w |}).
Proof.
  unfold write_file, syscall_result, os_path_isdir. intros H.
  repeat (case_match; simplify_eq/=; try done); eauto.
Qed.

Lemma consolidate_handler_run e w r w' :
  match e with
  | FileNotFoundError _ => logging ERROR ("Report file not found: " +:+ exn_str e)
  | _ => logging ERROR
           ("An error occurred during report consolidation: " +:+ exn_str e)
  end w = (r, w') ->
  r = Ok tt /\ fs w' = fs w /\ exists l, trace w' = l :: trace w /\
    forall p c, l <> Sys (WriteFile p c) true.
Proof.
  unfold logging, emit. intros H.
  destruct e; simplify_eq/=; (split; [reflexivity |]); (split; [reflexivity |]);
    eexists; (split; [reflexivity |]); discriminate.
Qed.

Lemma snoc_app {A : Type} (l : list A) (x : A) (t : list A) :
  ((l ++ [x]) ++ t)%list = (l ++ x :: t)%list.
Proof. by rewrite <- app_assoc. Qed.

Lemma consolidate_run env output_filename w r w' :
  consolidate_reports env output_filename w = (r, w') ->
  r = Ok tt /\
  exists evs, trace w' = (evs ++ trace w)%list /\
    ((fs w' = fs w /\ forall p c, ~ wrote p c evs) \/
     (exists data,
        report_data env (fs w !! SECRETS_REPORT_FILENAME)
          (fs w !! VULN_REPORT_FILENAME) = Some data /\
        os_path_isdir (fs w) output_filename = false /\
        fs w' = <[output_filename := File (document env data)]> (fs w) /\
        wrote output_filename (document env data) evs /\
        forall p c, wrote p c evs ->
          p = output_filename /\ c = document env data)).
Proof.
  unfold consolidate_reports. intros H.
  apply bind_inv in H as [(u0 & w0 & Hlog & H) | (e & Hlog & _)];
    [| discriminate Hlog].
  unfold logging in Hlog. simplify_eq/=.
  apply try_except_inv in H as [(a & H & ->) | (e & w2 & H & Hh)].
  - (* the body returned *)
    apply bind_inv in H as [(data & w1 & Hb & H) | (e & _ & ?)]; [| discriminate].
    apply build_report_run in Hb as (Hfs & (evs & Htr & Hnw) & Hdata).
    specialize (Hdata _ eq_refl). simpl in Hdata.
    apply bind_inv in H as [(u2 & w2 & Hw & H) | (e & _ & ?)]; [| discriminate].
    apply write_file_run in Hw as [(_ & Hdir & ->) | (e & ? & _)]; [| discriminate].
    unfold logging, emit in H. simplify_eq/=.
    split; [reflexivity |]. rewrite Htr, Hfs in *.
    eexists (_ :: _ :: evs ++ [_])%list. split; [simpl; by rewrite snoc_app |].
    right. exists data. unfold document, wrote in *.
    repeat split; try done.
    + simpl. tauto.
    + simpl in H. destruct H as [H | [H | H]]; try discriminate; [by simplify_eq |].
      apply in_app_or in H as [H | [H | []]]; [by apply Hnw in H | discriminate].
    + simpl in H. destruct H as [H | [H | H]]; try discriminate; [by simplify_eq |].
      apply in_app_or in H as [H | [H | []]]; [by apply Hnw in H | discriminate].
  - (* the body raised: nothing was written *)
    apply consolidate_handler_run in Hh as (-> & Hfs' & l & Htr' & Hl).
    split; [reflexivity |].
    assert (fs w2 = fs w /\ exists evs, trace w2 = (evs ++ trace w)%list /\
              forall p c, ~ wrote p c evs) as (Hfs & evs & Htr & Hnw).
    { apply bind_inv in H as [(data & w1 & Hb & H) | (e' & Hb & _)].
      - apply build_report_run in Hb as (Hfs & (evs & Htr & Hnw) & _).
        apply bind_inv in H as [(u3 & w3 & Hw & H) | (e' & Hw & _)].
        + unfold logging in H. discriminate.
        + apply write_file_run in Hw as [(? & _) | (e'' & _ & ->)]; [discriminate |].
          simpl. split; [exact Hfs |].
          exists (Sys (WriteFile output_filename
                         (json_dumps env (Some 4%nat) (JDict data))) false
                  :: evs ++ [Log INFO "Consolidating reports..."])%list.
          split; [rewrite Htr; simpl; by rewrite snoc_app |].
          intros p c [Hin | Hin]; [discriminate |].
          apply in_app_or in Hin as [Hin | [Hin | []]];
            [by apply Hnw in Hin | discriminate].
      - apply build_report_run in Hb as (Hfs & (evs & Htr & Hnw) & _).
        split; [exact Hfs |].
        exists (evs ++ [Log INFO "Consolidating reports..."])%list.
        split; [rewrite Htr; simpl; by rewrite snoc_app |].
        intros p c Hin. apply in_app_or in Hin as [Hin | [Hin | []]];
          [by apply Hnw in Hin | discriminate]. }
    exists (l :: evs). split; [by rewrite Htr', Htr |].
    left. split; [congruence |].
    intros p c [Hin | Hin]; [by apply Hl in Hin | by apply Hnw in Hin].
Qed.

Lemma build_report_complete env w data :
  no_io_fault env ->
  report_data env (fs w !! SECRETS_REPORT_FILENAME) (fs w !! VULN_REPORT_FILENAME)
  = Some data ->
  exists w1, build_report env w = (Ok data, w1) /\ fs w1 = fs w.
Proof.
  intros Hnf. unfold no_io_fault in Hnf. run_all. rewrite ?Hnf. intros H.
  repeat (case_match; simplify_eq/=; try done);
    try match goal with
        | H : os_fault _ _ _ = Some _ |- _ => rewrite Hnf in H; discriminate
        end;
    repeat match goal with
           | H1 : ?x = _, H2 : ?x = _ |- _ => rewrite H1 in H2; simplify_eq
           end;
    eauto.
Qed.

Lemma consolidate_complete env output_filename w data :
  no_io_fault env ->
  report_data env (fs w !! SECRETS_REPORT_FILENAME) (fs w !! VULN_REPORT_FILENAME)
  = Some data ->
  os_path_isdir (fs w) output_filename = false ->
  exists w',
    consolidate_reports env output_filename w = (Ok tt, w') /\
    fs w' = <[output_filename := File (document env data)]> (fs w).
Proof.
  intros Hnf Hdata Hdir.
  destruct (build_report_complete env (emit (Log INFO "Consolidating reports...") w)
              data Hnf Hdata) as (w1 & Hb & Hfs).
  unfold consolidate_reports, mbind, M_bind, try_except, logging at 1.
  rewrite Hb. unfold write_file, syscall_result. rewrite (Hnf _ w1), Hfs. simpl.
  unfold os_path_isdir in Hdir.
  destruct (fs w !! output_filename) as [[c | d] |]; try discriminate;
    unfold logging, emit; simpl; eauto.
Qed.

(** C1 (amended): when the vulnerability raw file is on disk and
    [json.load] raises [JSONDecodeError] on it, [consolidate_reports] does
    not abort: it embeds [{"error": "Failed to decode vulnerability report.
    Check logs for details."}] under [vulnerabilities] and, the secrets raw
    file being absent or loadable and the operating system refusing no
    call, returns normally and writes the document at the output path. *)
Theorem C1_vulnerability_decode_failure env output_filename w text msg :
  no_io_fault env ->
  fs w !! VULN_REPORT_FILENAME = Some (File text) ->
  json_loads env text = Raise (JSONDecodeError msg) ->
  (fs w !! SECRETS_REPORT_FILENAME = None \/
   exists t j, fs w !! SECRETS_REPORT_FILENAME = Some (File t) /\
               json_loads env t = Ok j) ->
  os_path_isdir (fs w) output_filename = false ->
  exists data w',
    consolidate_reports env output_filename w = (Ok tt, w') /\
    dict_get "vulnerabilities" data = Some vuln_decode_failure /\
    fs w' !! output_filename = Some (File (document env data)).
Proof.
  intros Hnf Hv Hload Hs Hdir.
  assert (exists sec, report_data env (fs w !! SECRETS_REPORT_FILENAME)
                        (fs w !! VULN_REPORT_FILENAME)
                      = Some [("secrets", sec); ("vulnerabilities", vuln_decode_failure)])
    as (sec & Hdata).
  { unfold report_data. rewrite Hv, Hload.
    destruct Hs as [-> | (t & j & -> & ->)]; eauto. }
  destruct (consolidate_complete env output_filename w _ Hnf Hdata Hdir)
    as (w' & Hrun & Hfs).
  exists [("secrets", sec); ("vulnerabilities", vuln_decode_failure)], w'.
  split; [exact Hrun |]. split; [reflexivity |].
  rewrite Hfs. apply disk_lookup_insert_eq.
Qed.

Lemma C1_vulnerability_decode_failure_witness :
  exists data w',
    consolidate_reports bare_env DEFAULT_OUTPUT
      (world_of {[ VULN_REPORT_FILENAME := File EmptyString ]}) = (Ok tt, w') /\
    dict_get "vulnerabilities" data = Some vuln_decode_failure /\
    fs w' !! DEFAULT_OUTPUT = Some (File (document bare_env data)).
Proof.
  apply (C1_vulnerability_decode_failure bare_env DEFAULT_OUTPUT
           (world_of {[ VULN_REPORT_FILENAME := File EmptyString ]}) EmptyString "Expecting value").
  - intros c w. reflexivity.
  - vm_compute. reflexivity.
  - vm_compute. reflexivity.
  - left. vm_compute. reflexivity.
  - vm_compute. reflexivity.
Defined.

(** C1, as stated, fails twice.  On an empty vulnerability raw file the
    [vulnerabilities] entry is not [{"error": "decode failure"}]; on an
    empty secrets raw file nothing is embedded and no output file is
    written. *)
Lemma C1_counterexample :
  (exists data,
     fst (build_report bare_env (world_of {[ VULN_REPORT_FILENAME := File EmptyString ]}))
     = Ok data /\
     dict_get "vulnerabilities" data
     <> Some (JDict [("error", JStr "decode failure")])) /\
  fs (snd (consolidate_reports bare_env DEFAULT_OUTPUT
             (world_of {[ SECRETS_REPORT_FILENAME := File EmptyString ]})))
    !! DEFAULT_OUTPUT = None.
Proof.
  split.
  - eexists. split; [vm_compute; reflexivity |]. vm_compute. discriminate.
  - vm_compute. reflexivity.
Qed.

Lemma report_data_absent env s v data c :
  report_data env s v = Some data ->
  match c with Secrets => s | Vulnerabilities => v end = None ->
  dict_get (category_key c) data = Some (not_run c).
Proof.
  unfold report_data. intros H Habs.
  destruct c; subst; repeat (case_match; simplify_eq/=; try done).
Qed.

(** C2 (amended): whenever [consolidate_reports] writes its document, the
    entry of a category whose raw file is absent is the placeholder of
    lines 179 and 191: [{"status": "No secrets scan performed or no secrets
    found."}] for [secrets], [{"status": "No vulnerability scans
    performed."}] for [vulnerabilities]. *)
Theorem C2_absent_raw_file_placeholder env output_filename w r w' evs content c :
  consolidate_reports env output_filename w = (r, w') ->
  trace w' = (evs ++ trace w)%list ->
  wrote output_filename content evs ->
  fs w !! raw_file c = None ->
  exists data,
    content = document env data /\
    dict_get (category_key c) data = Some (not_run c).
Proof.
  intros Hrun Htr Hw Habs.
  apply consolidate_run in Hrun as (_ & evs' & Htr' & Hcases).
  assert (evs' = evs) as -> by (rewrite Htr in Htr'; by apply app_inv_tail in Htr').
  destruct Hcases as [(_ & Hnw) | (data & Hdata & _ & _ & _ & Honly)].
  - by apply Hnw in Hw.
  - apply Honly in Hw as (_ & ->). exists data. split; [reflexivity |].
    eapply report_data_absent; [exact Hdata |]. by destruct c.
Qed.

Lemma C2_absent_raw_file_placeholder_witness :
  exists data,
    PyJson.dumps (Some 4%nat)
      (JDict [("secrets", secrets_not_run); ("vulnerabilities", vuln_not_run)])
    = document bare_env data /\
    dict_get "secrets" data = Some secrets_not_run.
Proof.
  apply (C2_absent_raw_file_placeholder bare_env DEFAULT_OUTPUT (world_of ∅)
           (Ok tt)
           (snd (consolidate_reports bare_env DEFAULT_OUTPUT (world_of ∅)))
           (trace (snd (consolidate_reports bare_env DEFAULT_OUTPUT (world_of ∅))))
           _ Secrets).
  - vm_compute. reflexivity.
  - vm_compute. reflexivity.
  - vm_compute. right. left. reflexivity.
  - vm_compute. reflexivity.
Defined.

(** C2, as stated, fails: with no raw file on disk the [secrets] entry is
    not [{"status": "not run"}]. *)
Lemma C2_counterexample :
  exists data,
    fst (build_report bare_env (world_of ∅)) = Ok data /\
    (world_of ∅).(fs) !! SECRETS_REPORT_FILENAME = None /\
    dict_get "secrets" data <> Some (JDict [("status", JStr "not run")]).
Proof.
  eexists. split; [vm_compute; reflexivity |]. split; [reflexivity |].
  vm_compute. discriminate.
Qed.

Lemma raw_file_lookup_insert c output_filename (x : node) (m : FS) :
  ~ same_file m output_filename SECRETS_REPORT_FILENAME ->
  ~ same_file m output_filename VULN_REPORT_FILENAME ->
  <[output_filename := x]> m !! raw_file c = m !! raw_file c.
Proof. intros H1 H2. apply disk_lookup_insert_ne. by destruct c. Qed.

(** C7 (amended): for an output path that names neither of the two raw
    report files (under whatever spelling: [same_file] is about the file a
    path string names, not about the string), two runs of
    [consolidate_reports] in succession leave both raw files as they were;
    if both runs write, they write the same bytes, which is what the output
    path then holds; and when the operating system refuses no call the
    second run leaves the whole disk as the first run left it. *)
Theorem C7_consolidation_idempotent
  env output_filename w r1 w1 r2 w2 evs1 evs2 :
  ~ same_file (fs w) output_filename SECRETS_REPORT_FILENAME ->
  ~ same_file (fs w) output_filename VULN_REPORT_FILENAME ->
  consolidate_reports env output_filename w = (r1, w1) ->
  consolidate_reports env output_filename w1 = (r2, w2) ->
  trace w1 = (evs1 ++ trace w)%list ->
  trace w2 = (evs2 ++ trace w1)%list ->
  (forall c, fs w1 !! raw_file c = fs w !! raw_file c /\
             fs w2 !! raw_file c = fs w !! raw_file c) /\
  (forall c1 c2,
     wrote output_filename c1 evs1 -> wrote output_filename c2 evs2 ->
     c1 = c2 /\ fs w2 !! output_filename = Some (File c1)) /\
  (no_io_fault env -> fs w2 = fs w1).
Proof.
  intros Hs Hv Hrun1 Hrun2 Htr1 Htr2.
  pose proof Hrun1 as Hrun1'.
  apply consolidate_run in Hrun1 as (_ & e1 & Htr1' & Hc1).
  apply consolidate_run in Hrun2 as (_ & e2 & Htr2' & Hc2).
  assert (e1 = evs1) as -> by (rewrite Htr1 in Htr1'; by apply app_inv_tail in Htr1').
  assert (e2 = evs2) as -> by (rewrite Htr2 in Htr2'; by apply app_inv_tail in Htr2').
  assert (Hraw1 : forall c, fs w1 !! raw_file c = fs w !! raw_file c).
  { intros c. destruct Hc1 as [(-> & _) | (d & _ & _ & -> & _)];
      [reflexivity | by apply raw_file_lookup_insert]. }
  assert (Hnames : names (fs w1) = names (fs w)).
  { by destruct Hc1 as [(-> & _) | (d & _ & _ & -> & _)]. }
  assert (Hraw2 : forall c, fs w2 !! raw_file c = fs w1 !! raw_file c).
  { intros c. destruct Hc2 as [(-> & _) | (d & _ & _ & -> & _)];
      [reflexivity |].
    apply raw_file_lookup_insert; unfold same_file; by rewrite Hnames. }
  pose proof (Hraw1 Secrets) as HS. pose proof (Hraw1 Vulnerabilities) as HV.
  simpl in HS, HV.
  split; [| split].
  - intros c. split; [apply Hraw1 | by rewrite Hraw2].
  - intros c1 c2 W1 W2.
    destruct Hc1 as [(_ & Hn) | (d1 & Hd1 & _ & _ & _ & Ho1)]; [by apply Hn in W1 |].
    destruct Hc2 as [(_ & Hn) | (d2 & Hd2 & _ & Hfs2 & _ & Ho2)]; [by apply Hn in W2 |].
    apply Ho1 in W1 as (_ & ->). apply Ho2 in W2 as (_ & ->).
    rewrite HS, HV, Hd1 in Hd2. simplify_eq.
    split; [reflexivity |]. rewrite Hfs2. apply disk_lookup_insert_eq.
  - intros Hnf.
    destruct Hc2 as [(-> & _) | (d2 & Hd2 & Hdir2 & -> & _)]; [reflexivity |].
    rewrite HS, HV in Hd2.
    assert (os_path_isdir (fs w) output_filename = false) as Hdir.
    { destruct Hc1 as [(<- & _) | (d1 & _ & Hdir & _)]; assumption. }
    destruct (consolidate_complete env output_filename w d2 Hnf Hd2 Hdir)
      as (w1' & Hrun & Hfs).
    rewrite Hrun1' in Hrun. simplify_eq. rewrite Hfs.
    apply disk_insert_insert_eq.
Qed.

Lemma C7_consolidation_idempotent_witness :
  let w := world_of ∅ in
  let w1 := snd (consolidate_reports bare_env DEFAULT_OUTPUT w) in
  let w2 := snd (consolidate_reports bare_env DEFAULT_OUTPUT w1) in
  (forall c, fs w1 !! raw_file c = fs w !! raw_file c /\
             fs w2 !! raw_file c = fs w !! raw_file c) /\
  (forall c1 c2,
     wrote DEFAULT_OUTPUT c1 (firstn 3 (trace w1)) ->
     wrote DEFAULT_OUTPUT c2 (firstn 3 (trace w2)) ->
     c1 = c2 /\ fs w2 !! DEFAULT_OUTPUT = Some (File c1)) /\
  (no_io_fault bare_env -> fs w2 = fs w1).
Proof.
  intros w w1 w2.
  apply (C7_consolidation_idempotent bare_env DEFAULT_OUTPUT w (Ok tt) w1 (Ok tt) w2).
  - vm_compute. discriminate.
  - vm_compute. discriminate.
  - vm_compute. reflexivity.
  - vm_compute. reflexivity.
  - vm_compute. reflexivity.
  - vm_compute. reflexivity.
Defined.

(** On a disk where [./secrets_report.json] is another spelling of
    [secrets_report.json], consolidating into the former writes the raw
    secrets report. *)
Example dotted_output_overwrites_secrets_report :
  let dotted :=
    {| files := ∅;
       names := fun p => if String.eqb p "./secrets_report.json"
                         then SECRETS_REPORT_FILENAME else p |} in
  let w1 := snd (consolidate_reports bare_env "./secrets_report.json"
                   (world_of dotted)) in
  fs (world_of dotted) !! SECRETS_REPORT_FILENAME = None /\
  exists content, fs w1 !! SECRETS_REPORT_FILENAME = Some (File content).
Proof. split; [reflexivity |]. eexists. vm_compute. reflexivity. Qed.

(** C7, as stated, fails when the output path is a raw report file: on an
    empty disk the first run creates the vulnerability raw file, and the
    second run, which now embeds it, writes other bytes. *)
Lemma C7_counterexample :
  let w := world_of ∅ in
  let w1 := snd (consolidate_reports bare_env VULN_REPORT_FILENAME w) in
  let w2 := snd (consolidate_reports bare_env VULN_REPORT_FILENAME w1) in
  fs w1 !! VULN_REPORT_FILENAME <> fs w !! VULN_REPORT_FILENAME /\
  fs w2 !! VULN_REPORT_FILENAME <> fs w1 !! VULN_REPORT_FILENAME.
Proof.
  split; vm_compute; discriminate.
Qed.





(** ** The orchestrator *)

(** *** Computations that never raise *)

Lemma total_ret {A : Type} (a : A) : total (mret a).
Proof. intros w. by exists a. Qed.

Lemma returns_total {A : Type} (a : A) (m : M A) : returns a m -> total m.
Proof. intros H w. exists a. apply H. Qed.

Lemma total_logging lvl msg : total (logging lvl msg).
Proof. intros w. by exists tt. Qed.

Lemma total_gets {A : Type} (f : FS -> A) : total (gets f).
Proof. intros w. by eexists. Qed.

Lemma total_bind {A B : Type} (m : M A) (f : A -> M B) :
  total m -> (forall a, total (f a)) -> total (m ≫= f).
Proof.
  intros Hm Hf w. unfold mbind, M_bind.
  destruct (Hm w) as (a & Ha). destruct (m w) as [r w1]. simpl in Ha. subst r.
  apply Hf.
Qed.

Lemma total_try_except {A : Type} (m : M A) (h : exn -> M A) :
  (forall e, total (h e)) -> total (try_except m h).
Proof.
  intros Hh w. unfold try_except. destruct (m w) as [[a | e] w1].
  - by exists a.
  - apply Hh.
Qed.

Lemma returns_ret {A : Type} (a : A) : returns a (mret a).
Proof. intros w. reflexivity. Qed.

Lemma returns_bind {A B : Type} (b : B) (m : M A) (f : A -> M B) :
  total m -> (forall a, returns b (f a)) -> returns b (m ≫= f).
Proof.
  intros Hm Hf w. unfold mbind, M_bind.
  destruct (Hm w) as (a & Ha). destruct (m w) as [r w1]. simpl in Ha. subst r.
  apply Hf.
Qed.

Ltac totality :=
  repeat first
    [ apply total_ret | apply total_logging | apply total_gets
    | apply total_try_except; intros []
    | apply total_bind; [| intros ?]
    | match goal with
      | |- total (if ?b then _ else _) => destruct b
      end ].

Lemma scan_secrets_total env target : total (scan_secrets env target).
Proof. unfold scan_secrets. totality. Qed.

Lemma run_nuclei_total env target : total (run_nuclei env target).
Proof. unfold run_nuclei. totality. Qed.

Lemma run_testssl_total env target : total (run_testssl env target).
Proof. unfold run_testssl. totality. Qed.

Lemma is_git_repository_total env path : total (is_git_repository env path).
Proof. unfold is_git_repository. totality. Qed.

(** The tools cannot make a scan fail: whatever they do, lines 231-254
    return [True]. *)
Lemma run_tools_true env target scan_target tools :
  returns true (run_tools env target scan_target tools).
Proof.
  unfold run_tools.
  repeat first
    [ apply returns_ret
    | apply returns_bind; [| intros ?] ];
  repeat first
    [ apply scan_secrets_total | apply run_nuclei_total | apply run_testssl_total
    | apply total_ret | apply total_logging | apply total_gets
    | apply total_bind; [| intros ?]
    | match goal with
      | |- total (if ?b then _ else _) => destruct b
      end ].
Qed.

Lemma cleanup_total env temp_dir : total (cleanup env temp_dir).
Proof. unfold cleanup. destruct temp_dir; totality. Qed.

(** *** What a scan can emit *)

Lemma emitted_step (P : event -> Prop) e fs' w :
  P e -> emitted P w {| fs := fs'; trace := e :: trace w |}.
Proof. intros H. exists [e]. split; [reflexivity | by constructor]. Qed.

Lemma always_perform_scan env (R : relation World) `{!PreOrder R} target tools :
  always R (scan_body env target tools) ->
  always R (cleanup env (temp_dir_of target)) ->
  always R (perform_scan env target tools).
Proof.
  intros Hb Hc w r w' H. unfold perform_scan in H.
  destruct (scan_body env target tools w) as [r1 w1] eqn:E1.
  destruct (cleanup env (temp_dir_of target) w1) as [r2 w2] eqn:E2.
  simplify_eq. transitivity w1; [eapply Hb | eapply Hc]; eauto.
Qed.

Ltac emits_by side :=
  repeat first
    [ apply always_ret; apply _
    | apply always_raise; apply _
    | apply always_gets; apply _
    | apply always_json_load; apply _
    | apply always_bind; [apply _ | | intros ?]
    | apply always_try_except; [apply _ | | intros ?]
    | apply always_logging; intros; apply emitted_step; side
    | apply always_subprocess_run; intros; apply emitted_step; side
    | apply always_os_makedirs; intros ? ?; apply emitted_step; side
    | apply always_shutil_rmtree; intros ? ?; apply emitted_step; side
    | apply always_read_file; intros ? ?; apply emitted_step; side
    | apply always_write_file; intros ? ?; apply emitted_step; side
    | match goal with
      | |- always _ (if ?b then _ else _) => destruct b
      | |- always _ (match ?x with _ => _ end) => destruct x
      end ].

Ltac emits := emits_by ltac:(reflexivity).

Lemma is_git_repository_quiet env path :
  always (emitted quiet) (is_git_repository env path).
Proof. unfold is_git_repository, quiet. emits. Qed.

Lemma clone_repository_quiet env url dest :
  always (emitted quiet) (clone_repository env url dest).
Proof. unfold clone_repository, quiet. emits. Qed.

Lemma resolve_target_quiet env target :
  always (emitted quiet) (resolve_target env target).
Proof.
  unfold resolve_target, check_git.
  pose proof (is_git_repository_quiet env). pose proof (clone_repository_quiet env).
  unfold quiet in *. emits; eauto.
Qed.

Lemma cleanup_quiet env temp_dir : always (emitted quiet) (cleanup env temp_dir).
Proof. unfold cleanup, quiet. emits. Qed.

(** *** The shape of a scan *)

Lemma scan_body_cases env target tools w :
  scan_body env target tools w =
  match resolve_target env target w with
  | (Ok (Some scan_target), w1) => run_tools env target scan_target tools w1
  | (Ok None, w1) => (Ok false, w1)
  | (Raise e, w1) =>
      (Ok false, emit (Log ERROR ("An error occurred during the scan: " +:+ exn_str e)) w1)
  end.
Proof.
  unfold scan_body, try_except, mbind, M_bind.
  destruct (resolve_target env target w) as [[[p |] | e] w1]; try reflexivity.
  pose proof (run_tools_true env target p tools w1) as H.
  destruct (run_tools env target p tools w1) as [r w2]. simpl in H. by subst r.
Qed.

Lemma perform_scan_fst env target tools w :
  fst (perform_scan env target tools w) = fst (scan_body env target tools w).
Proof.
  unfold perform_scan. destruct (scan_body env target tools w) as [r w1].
  by destruct (cleanup env (temp_dir_of target) w1).
Qed.

Lemma perform_scan_snd env target tools w :
  snd (perform_scan env target tools w)
  = snd (cleanup env (temp_dir_of target) (snd (scan_body env target tools w))).
Proof.
  unfold perform_scan. destruct (scan_body env target tools w) as [r w1]. simpl.
  by destruct (cleanup env (temp_dir_of target) w1).
Qed.

Lemma check_git_some env path p w w1 :
  check_git env path w = (Ok (Some p), w1) <->
  p = path /\ is_git_repository env path w = (Ok true, w1).
Proof.
  unfold check_git, mbind, M_bind, logging, mret, M_ret. split.
  - destruct (is_git_repository env path w) as [[[|] | e] w2]; intros H;
      by simplify_eq.
  - intros (-> & ->). reflexivity.
Qed.

(** [resolve_target] succeeds exactly when the target resolves in the
    sense of the specification. *)
Lemma resolve_target_spec env target w p w1 :
  resolve_target env target w = (Ok (Some p), w1) <-> resolved env target w p w1.
Proof.
  unfold resolve_target. split.
  - destruct (is_url target) eqn:Hurl; intros H.
    + apply bind_inv in H as [(u & w0 & Hl & H) | (e & _ & ?)]; [| discriminate].
      unfold logging in Hl. simplify_eq.
      apply bind_inv in H as [(u & wa & Hm & H) | (e & _ & ?)]; [| discriminate].
      apply bind_inv in H as [(u' & wb & Hc & H) | (e & _ & ?)]; [| discriminate].
      apply check_git_some in H as (-> & Hg). destruct u, u'.
      by eapply resolved_remote.
    + apply bind_inv in H as [(d & w0 & Hd & H) | (e & _ & ?)]; [| discriminate].
      unfold gets in Hd. simplify_eq. destruct (os_path_isdir (fs w0) target) eqn:Hdir.
      * apply bind_inv in H as [(u & wa & Hl & H) | (e & _ & ?)]; [| discriminate].
        unfold logging in Hl. simplify_eq.
        apply check_git_some in H as (-> & Hg). by apply resolved_local.
      * apply bind_inv in H as [(u & wa & Hl & H) | (e & _ & ?)]; discriminate.
  - intros [wa wb w1' Hurl Hm Hc Hg | w1' Hurl Hdir Hg]; rewrite Hurl.
    + unfold mbind, M_bind, logging at 1. rewrite Hm, Hc.
      by apply check_git_some.
    + unfold mbind, M_bind, gets. rewrite Hdir. unfold logging at 1.
      by apply check_git_some.
Qed.

Lemma scan_body_quiet_on_failure env target tools w :
  fst (scan_body env target tools w) = Ok false ->
  emitted quiet w (snd (scan_body env target tools w)).
Proof.
  rewrite scan_body_cases.
  pose proof (resolve_target_quiet env target w) as Hq.
  destruct (resolve_target env target w) as [[[p |] | e] w1]; simpl; intros H.
  - by rewrite run_tools_true in H.
  - by eapply Hq.
  - transitivity w1; [by eapply Hq | by apply emitted_step].
Qed.

Lemma resolved_scan_succeeds env target tools w :
  (exists p w1, resolved env target w p w1) ->
  fst (perform_scan env target tools w) = Ok true.
Proof.
  intros (p & w1 & H). rewrite perform_scan_fst, scan_body_cases.
  apply resolve_target_spec in H. rewrite H. apply run_tools_true.
Qed.

(** C4: [perform_scan] returns [True] exactly when the target resolves (the
    URL was cloned into its workspace, or the target is a local directory,
    and the path is a git work tree); it returns [True] or [False] and
    never raises; and when it returns [False] no adapter was entered and no
    tool was started.  Nothing the tools do can change the result. *)
Theorem C4_scan_succeeds_iff_resolved env target tools w :
  (fst (perform_scan env target tools w) = Ok true <->
   exists p w1, resolved env target w p w1) /\
  (fst (perform_scan env target tools w) = Ok true \/
   fst (perform_scan env target tools w) = Ok false) /\
  (fst (perform_scan env target tools w) = Ok false ->
   emitted (fun e => adapter_event e = false) w
     (snd (perform_scan env target tools w))).
Proof.
  rewrite perform_scan_fst, perform_scan_snd.
  split; [| split].
  - rewrite scan_body_cases. split.
    + destruct (resolve_target env target w) as [[[p |] | e] w1] eqn:E;
        simpl; intros H; try discriminate.
      exists p, w1. by apply resolve_target_spec.
    + intros H. rewrite <- scan_body_cases, <- perform_scan_fst.
      by apply resolved_scan_succeeds.
  - rewrite scan_body_cases.
    destruct (resolve_target env target w) as [[[p |] | e] w1]; simpl; auto.
    left. apply run_tools_true.
  - intros H. transitivity (snd (scan_body env target tools w)).
    + by apply scan_body_quiet_on_failure.
    + eapply (cleanup_quiet env (temp_dir_of target)). apply surjective_pairing.
Qed.

(** *** Local targets *)

Lemma requested_mem tool tools :
  mem tool match tools with
           | None | Some [] => ALL_TOOLS
           | Some ts => ts
           end = requested tool tools.
Proof. by destruct tools as [[|] |]. Qed.

Lemma run_tools_local env target scan_target tools w :
  is_url target = false ->
  let w1 := snd (secrets_step env scan_target tools w) in
  let w2 := if requested "nuclei" tools && os_path_isdir (fs w1) target
            then emit skip_nuclei w1 else w1 in
  let w3 := if requested "testssl.sh" tools then emit skip_testssl w2 else w2 in
  run_tools env target scan_target tools w = (Ok true, w3).
Proof.
  intros Hurl. unfold run_tools, secrets_step. rewrite !requested_mem, Hurl. simpl.
  unfold mbind, M_bind, mret, M_ret, gets.
  destruct (requested "detect-secrets" tools).
  - destruct (scan_secrets_total env scan_target w) as (b & Hb).
    destruct (scan_secrets env scan_target w) as [r w1]. simpl in Hb. subst r. simpl.
    destruct (requested "nuclei" tools); simpl;
      [destruct (os_path_isdir (fs w1) target); simpl |];
      by destruct (requested "testssl.sh" tools).
  - simpl. destruct (requested "nuclei" tools); simpl;
      [destruct (os_path_isdir (fs w) target); simpl |];
      by destruct (requested "testssl.sh" tools).
Qed.

#[global] Instance still_dir_preorder p : PreOrder (still_dir p).
Proof.
  split.
  - intros w H. exact H.
  - intros w1 w2 w3 H1 H2 H. apply H2, H1, H.
Qed.


Lemma quiet_url_tool e : quiet e -> url_tool_event e = false.
Proof.
  unfold quiet, adapter_event, url_tool_event. simpl.
  destruct (tool_event "detect-secrets" e), (tool_event "nuclei" e),
    (tool_event "testssl.sh" e); simpl; congruence.
Qed.

Lemma scan_secrets_url_tools env target :
  always (emitted (fun e => url_tool_event e = false)) (scan_secrets env target).
Proof. unfold scan_secrets. emits. Qed.

Lemma secrets_step_url_tools env scan_target tools :
  always (emitted (fun e => url_tool_event e = false))
    (secrets_step env scan_target tools).
Proof.
  unfold secrets_step. pose proof (scan_secrets_url_tools env scan_target).
  emits; eauto.
Qed.

Ltac keeps Hkeep :=
  repeat first
    [ apply always_ret; apply _
    | apply always_raise; apply _
    | apply always_gets; apply _
    | apply always_bind; [apply _ | | intros ?]
    | apply always_try_except; [apply _ | | intros ?]
    | apply always_logging; intros ? ?; assumption
    | apply always_subprocess_run; intros ? ? ?; simpl; by apply Hkeep
    | match goal with
      | |- always _ (if ?b then _ else _) => destruct b
      | |- always _ (match ?x with _ => _ end) => destruct x
      end ].

Lemma is_git_repository_still_dir env target path :
  leaves_directory env target ->
  always (still_dir target) (is_git_repository env path).
Proof. intros Hkeep. unfold is_git_repository. keeps Hkeep. Qed.

Lemma write_file_still_dir env target p c :
  always (still_dir target) (write_file env p c).
Proof.
  apply always_write_file.
  - intros w ok H. exact H.
  - intros w Hp H. simpl. unfold os_path_isdir in *.
    destruct (decide (same_file (fs w) p target)) as [Hsame | Hne].
    + rewrite (disk_lookup_same _ _ _ Hsame) in Hp. by rewrite H in Hp.
    + by rewrite disk_lookup_insert_ne.
Qed.

Lemma secrets_step_still_dir env target scan_target tools :
  leaves_directory env target ->
  always (still_dir target) (secrets_step env scan_target tools).
Proof.
  intros Hkeep. unfold secrets_step, scan_secrets.
  pose proof (write_file_still_dir env target) as Hw.
  keeps Hkeep; eauto.
Qed.

(** C5: in a scan of a target that is not a URL, the adapters of the two
    URL tools are never entered and neither [nuclei] nor [testssl.sh] is
    started, whatever tools were asked for; and when the scan goes through,
    each of the two that was asked for is logged as skipped (for Nuclei, as
    long as no external process removed the target directory meanwhile). *)
Theorem C5_local_target_skips_url_tools env target tools w :
  is_url target = false ->
  exists evs,
    trace (snd (perform_scan env target tools w)) = (evs ++ trace w)%list /\
    Forall (fun e => url_tool_event e = false) evs /\
    (fst (perform_scan env target tools w) = Ok true ->
     requested "testssl.sh" tools = true -> In skip_testssl evs) /\
    (fst (perform_scan env target tools w) = Ok true ->
     requested "nuclei" tools = true ->
     leaves_directory env target -> In skip_nuclei evs).
Proof.
  intros Hurl.
  rewrite perform_scan_fst, perform_scan_snd.
  unfold temp_dir_of. rewrite Hurl. simpl.
  rewrite scan_body_cases.
  pose proof (resolve_target_quiet env target w) as Hq.
  destruct (resolve_target env target w) as [[[p |] | e] w0] eqn:E.
  - (* resolved: the tools phase *)
    apply resolve_target_spec in E as HR.
    destruct HR as [wa wb w1 Hurl' _ _ _ | w1 _ Hdir Hg]; [congruence |].
    destruct (Hq _ _ eq_refl) as (evs0 & Htr0 & HF0).
    rewrite (run_tools_local env target target tools w1 Hurl). simpl.
    pose proof (secrets_step_url_tools env target tools w1) as Hs.
    destruct (secrets_step env target tools w1) as [r1 w2] eqn:E1.
    destruct (Hs _ _ eq_refl) as (evs1 & Htr1 & HF1). simpl.
    exists ((if requested "testssl.sh" tools then [skip_testssl] else []) ++
            (if requested "nuclei" tools && os_path_isdir (fs w2) target
             then [skip_nuclei] else []) ++ evs1 ++ evs0)%list.
    split; [| split; [| split]].
    + destruct (requested "testssl.sh" tools),
        (requested "nuclei" tools && os_path_isdir (fs w2) target);
        simpl; rewrite Htr1, Htr0; by rewrite <- ?app_assoc.
    + repeat apply Forall_app_2.
      * destruct (requested "testssl.sh" tools); repeat constructor.
      * destruct (requested "nuclei" tools && os_path_isdir (fs w2) target);
          repeat constructor.
      * exact HF1.
      * eapply Forall_impl; [exact HF0 | apply quiet_url_tool].
    + intros _ ->. simpl. by left.
    + intros _ -> Hkeep. apply in_or_app. right. apply in_or_app. left.
      assert (os_path_isdir (fs w2) target = true) as ->; [| simpl; by left].
      eapply (secrets_step_still_dir env target target tools Hkeep); [exact E1 |].
      eapply (is_git_repository_still_dir env target target Hkeep); [exact Hg |].
      exact Hdir.
  - (* not resolved *)
    destruct (Hq _ _ eq_refl) as (evs0 & Htr0 & HF0). simpl.
    exists evs0. split; [exact Htr0 |].
    split; [eapply Forall_impl; [exact HF0 | apply quiet_url_tool] |].
    split; discriminate.
  - destruct (Hq _ _ eq_refl) as (evs0 & Htr0 & HF0). simpl.
    eexists (_ :: evs0). split; [by rewrite Htr0 |].
    split; [constructor; [reflexivity |];
            eapply Forall_impl; [exact HF0 | apply quiet_url_tool] |].
    split; discriminate.
Qed.

(** *** The workspace *)

Lemma scan_body_local_no_workspace env target tools :
  is_url target = false ->
  always (emitted (fun e => workspace_event e = false)) (scan_body env target tools).
Proof.
  intros Hurl.
  unfold scan_body, resolve_target, check_git, run_tools, is_git_repository,
    scan_secrets, run_nuclei, run_testssl.
  rewrite Hurl. emits.
Qed.

(** C8: a target that is not a URL, is an existing directory and passes
    [is_git_repository] resolves to itself; no workspace is set, the scan
    goes through, and the scan makes no directory, removes none and clones
    nothing. *)
Theorem C8_local_repository_resolves_to_itself env target tools w w1 :
  is_url target = false ->
  os_path_isdir (fs w) target = true ->
  is_git_repository env target
    (emit (Log INFO ("Target '" +:+ target +:+
                     "' is a local directory - using it directly.")) w)
  = (Ok true, w1) ->
  resolve_target env target w = (Ok (Some target), w1) /\
  temp_dir_of target = None /\
  fst (perform_scan env target tools w) = Ok true /\
  emitted (fun e => workspace_event e = false) w
    (snd (perform_scan env target tools w)).
Proof.
  intros Hurl Hdir Hg.
  assert (resolved env target w target w1) as HR by by apply resolved_local.
  split; [by apply resolve_target_spec |].
  split; [unfold temp_dir_of; by rewrite Hurl |].
  split; [apply resolved_scan_succeeds; eauto |].
  rewrite perform_scan_snd. unfold temp_dir_of. rewrite Hurl. simpl.
  eapply scan_body_local_no_workspace; [exact Hurl | apply surjective_pairing].
Qed.

(** The [finally] block returns normally; after it the directory is gone,
    or its removal raised, which is logged and leaves the disk alone. *)
Lemma cleanup_spec env d w :
  fst (cleanup env (Some d) w) = Ok tt /\
  (fs (snd (cleanup env (Some d) w)) !! d = None \/
   exists e,
     snd (cleanup env (Some d) w)
     = {| fs := fs w;
          trace := removal_failed d e :: Sys (Rmtree d) false :: trace w |}).
Proof.
  unfold cleanup, removal_failed, mbind, M_bind, mret, M_ret, gets, try_except,
    shutil_rmtree, syscall_result, os_path_exists, logging, emit.
  simpl.
  destruct (fs w !! d) as [[c | entries] |] eqn:E; simpl; [| | by auto];
    destruct (os_fault env (Rmtree d) w) as [e |]; simpl; rewrite ?E; simpl;
    (split; [reflexivity |]);
    first [ right; eexists; reflexivity
          | right; by exists (OtherException ("[Errno 20] Not a directory: '" +:+ d +:+ "'"))
          | left; apply disk_lookup_delete_eq ].
Qed.

Lemma scan_body_rmtree_fault f env target tools w :
  scan_body (with_rmtree_fault f env) target tools w = scan_body env target tools w.
Proof. reflexivity. Qed.

(** C6: after a scan of a URL target, however it went, the workspace
    ["temp_repo"] does not exist, unless its removal itself raised; in that
    case the failure is logged after the scan proper and nothing else
    happens.  The value the scan returns is the same whatever the removal
    does. *)
Theorem C6_workspace_removed env target tools w :
  is_url target = true ->
  (fs (snd (perform_scan env target tools w)) !! "temp_repo" = None \/
   exists e,
     snd (perform_scan env target tools w)
     = {| fs := fs (snd (scan_body env target tools w));
          trace := removal_failed "temp_repo" e :: Sys (Rmtree "temp_repo") false
                   :: trace (snd (scan_body env target tools w)) |}) /\
  (forall f,
     fst (perform_scan (with_rmtree_fault f env) target tools w)
     = fst (perform_scan env target tools w)).
Proof.
  intros Hurl. split.
  - rewrite perform_scan_snd. unfold temp_dir_of. rewrite Hurl.
    apply cleanup_spec.
  - intros f. rewrite !perform_scan_fst. by rewrite scan_body_rmtree_fault.
Qed.



(** *** The workspace of a URL scan *)

















(** ** The scheduler *)

Lemma perform_scan_total env target tools : total (perform_scan env target tools).
Proof.
  intros w. rewrite perform_scan_fst, scan_body_cases.
  destruct (resolve_target env target w) as [[[p |] | e] w1]; simpl; eauto.
  exists true. apply run_tools_true.
Qed.

Lemma consolidate_reports_total env output_filename :
  total (consolidate_reports env output_filename).
Proof.
  intros w. exists tt.
  destruct (consolidate_reports env output_filename w) as [r w'] eqn:E.
  by apply consolidate_run in E as (-> & _).
Qed.

Lemma scheduled_job_total env target tools : total (scheduled_job env target tools).
Proof.
  unfold scheduled_job.
  pose proof (perform_scan_total env target tools).
  pose proof (consolidate_reports_total env DEFAULT_OUTPUT).
  totality; eauto.
Qed.

Lemma datetime_now_total env : total (datetime_now env).
Proof. intros w. by eexists. Qed.

Lemma run_pending_total env jobs : total (run_pending env jobs).
Proof.
  induction jobs as [| j rest IH]; [apply total_ret |].
  change (run_pending env (j :: rest)) with
    (j' ← (now ← datetime_now env;
           if next_run j <=? now
           then scheduled_job env (job_target j) (job_tools j);;
                now' ← datetime_now env;
                mret (mkJob (job_period j) (now' + job_period j)
                        (job_target j) (job_tools j))
           else mret j);
     rest' ← run_pending env rest;
     mret (j' :: rest')).
  apply total_bind; [| intros j'; apply total_bind; [exact IH | intros; apply total_ret]].
  apply total_bind; [apply datetime_now_total | intros now].
  destruct (next_run j <=? now); [| apply total_ret].
  apply total_bind; [apply scheduled_job_total | intros _].
  apply total_bind; [apply datetime_now_total | intros; apply total_ret].
Qed.

(** The loop of lines 294-296 has no way out: after any number of turns
    the program is still in it. *)
Lemma polling_loop_never_returns env fuel jobs :
  returns None (polling_loop env fuel jobs).
Proof.
  revert jobs. induction fuel as [| fuel IH]; intros jobs; simpl.
  - apply returns_ret.
  - apply returns_bind; [apply run_pending_total | intros jobs'].
    apply returns_bind; [intros w; by exists tt | intros _]. apply IH.
Qed.

(** With [daily] or [weekly] one job is registered, due one period from
    now, and the program stays in the loop. *)
Lemma recurring_schedule_loops env fuel target schedule_type tools period w :
  (schedule_type = "daily" /\ period = 86400 \/
   schedule_type = "weekly" /\ period = 604800) ->
  schedule_every_do env (if String.eqb schedule_type "daily" then "day" else "week")
    target tools [] w
  = (Ok [mkJob period (clock env w + period) target tools], w) /\
  fst (schedule_scan env fuel target schedule_type tools w) = Ok None.
Proof.
  intros [(-> & ->) | (-> & ->)]; (split; [reflexivity |]);
    unfold schedule_scan, mbind, M_bind; simpl;
    apply polling_loop_never_returns.
Qed.

(** With [once], [schedule_scan] is one call of [scheduled_job] and a
    return; [scheduled_job] is one call of [perform_scan], followed by
    [consolidate_reports] exactly when the scan returned [True]. *)
Lemma once_is_one_job env fuel target tools w :
  schedule_scan env fuel target "once" tools w
  = (Ok (Some tt), snd (scheduled_job env target tools w)) /\
  scheduled_job env target tools w
  = (let w0 := emit (Log INFO ("Starting scheduled scan for target: " +:+ target)) w in
     let w1 := snd (perform_scan env target tools w0) in
     match fst (perform_scan env target tools w0) with
     | Ok true =>
         consolidate_reports env DEFAULT_OUTPUT
           (emit (Log INFO ("Scheduled scan for target: " +:+ target +:+
                            " completed successfully.")) w1)
     | _ =>
         (Ok tt, emit (Log ERROR ("Scheduled scan for target: " +:+ target +:+
                                  " failed.")) w1)
     end).
Proof.
  split.
  - unfold schedule_scan, mbind, M_bind. simpl.
    destruct (scheduled_job_total env target tools w) as ([] & H).
    destruct (scheduled_job env target tools w) as [r w1]. simpl in *. by subst r.
  - unfold scheduled_job, mbind, M_bind, logging at 1. simpl.
    destruct (perform_scan_total env target tools
                (emit (Log INFO ("Starting scheduled scan for target: " +:+ target)) w))
      as (b & H).
    destruct (perform_scan env target tools _) as [r w1]. simpl in *. subst r.
    by destruct b.
Qed.

(** C9, the [monthly] cadence: [schedule.every().month] raises
    [AttributeError], so [schedule_scan] registers no job, starts no scan
    and never reaches the loop; [main] logs the error and returns. *)
Theorem C9_monthly_is_never_scheduled env fuel target tools w :
  schedule_scan env fuel target "monthly" tools w
  = (Raise (AttributeError "'Job' object has no attribute 'month'"), w) /\
  main_scan env fuel target "monthly" tools w
  = (Ok (Some tt),
     emit (Log ERROR "An error occurred: 'Job' object has no attribute 'month'") w).
Proof. split; reflexivity. Qed.

(** The [once] branch of [main] (lines 307-311): one call of
    [perform_scan], followed by [consolidate_reports] exactly when the scan
    returned [True]; the scheduler is not entered. *)
Lemma main_once env fuel target tools w :
  main_scan env fuel target "once" tools w
  = (Ok (Some tt),
     match fst (perform_scan env target tools w) with
     | Ok true =>
         snd (consolidate_reports env DEFAULT_OUTPUT
                (snd (perform_scan env target tools w)))
     | _ => emit (Log ERROR "Scan failed.") (snd (perform_scan env target tools w))
     end).
Proof.
  unfold main_scan, try_except, mbind, M_bind. simpl.
  destruct (perform_scan_total env target tools w) as (b & H).
  destruct (perform_scan env target tools w) as [r w1]. simpl in *. subst r.
  destruct b; [| reflexivity].
  destruct (consolidate_reports_total env DEFAULT_OUTPUT w1) as ([] & H).
  destruct (consolidate_reports env DEFAULT_OUTPUT w1) as [r w2]. simpl in *.
  by subst r.
Qed.

(** A daily schedule on a machine whose clock moves with the sleeps of the
    loop: nothing fires during the first day, the job has fired once after
    1441 turns and twice after 2881. *)
Example daily_fires_repeatedly :
  let run fuel := snd (schedule_scan bare_env fuel "." "daily" None (world_of ∅)) in
  firings (trace (run 1440%nat)) = 0%nat /\
  firings (trace (run 1441%nat)) = 1%nat /\
  firings (trace (run 2881%nat)) = 2%nat.
Proof. vm_compute. repeat split. Qed.

(** ** Closed examples *)

Lemma isdir_insert_dir (m : FS) k entries p :
  os_path_isdir m p = true -> os_path_isdir (<[k := Dir entries]> m) p = true.
Proof.
  unfold os_path_isdir. intros H.
  destruct (decide (same_file m k p)) as [Hsame | Hne].
  - by rewrite (disk_lookup_insert_same _ _ _ _ Hsame).
  - by rewrite disk_lookup_insert_ne.
Qed.

Lemma isdir_insert_file (m : FS) k c p :
  os_path_isdir m k = false -> os_path_isdir m p = true ->
  os_path_isdir (<[k := File c]> m) p = true.
Proof.
  unfold os_path_isdir. intros Hk H.
  destruct (decide (same_file m k p)) as [Hsame | Hne].
  - rewrite (disk_lookup_same _ _ _ Hsame) in Hk. by rewrite Hk in H.
  - by rewrite disk_lookup_insert_ne.
Qed.

Lemma lab_leaves_directory p : leaves_directory lab_env p.
Proof.
  intros argv cwd w H. unfold lab_env, lab_run, bare_run, run_process.
  destruct argv as [| tool [| arg rest]]; try exact H.
  repeat case_match; cbn [snd]; try exact H.
  - by apply isdir_insert_dir.
  - by apply isdir_insert_file.
Qed.

Lemma lab_leaves_repo : leaves_directory lab_env "repo".
Proof. apply lab_leaves_directory. Qed.

Lemma C4_scan_succeeds_iff_resolved_witness :
  emitted (fun e => adapter_event e = false) (world_of ∅)
    (snd (perform_scan bare_env "no-such-directory" None (world_of ∅))).
Proof.
  apply (proj2 (proj2 (C4_scan_succeeds_iff_resolved bare_env "no-such-directory"
                         None (world_of ∅)))).
  vm_compute. reflexivity.
Defined.

Lemma C5_local_target_skips_url_tools_witness :
  exists evs,
    trace (snd (perform_scan lab_env "repo" None (world_of repo_disk)))
    = (evs ++ [])%list /\
    Forall (fun e => url_tool_event e = false) evs /\
    In skip_testssl evs /\ In skip_nuclei evs.
Proof.
  destruct (C5_local_target_skips_url_tools lab_env "repo" None (world_of repo_disk))
    as (evs & Htr & HF & HT & HN).
  - reflexivity.
  - exists evs. split; [exact Htr |]. split; [exact HF |]. split.
    + apply HT; vm_compute; reflexivity.
    + apply HN; [vm_compute; reflexivity | reflexivity | apply lab_leaves_repo].
Defined.

Lemma C6_workspace_removed_witness :
  fs (snd (perform_scan lab_env sample_url None (world_of ∅))) !! "temp_repo" = None /\
  fst (perform_scan
         (with_rmtree_fault (fun _ _ => Some (OtherException "Permission denied")) lab_env)
         sample_url None (world_of ∅))
  = Ok true.
Proof.
  destruct (C6_workspace_removed lab_env sample_url None (world_of ∅)) as (H1 & H2).
  - reflexivity.
  - split.
    + vm_compute. reflexivity.
    + rewrite H2. vm_compute. reflexivity.
Defined.

Lemma C8_local_repository_resolves_to_itself_witness :
  resolve_target bare_env "repo" (world_of repo_disk)
  = (Ok (Some "repo"),
     emit (Log INFO "Target 'repo' is a local directory - using it directly.")
       (world_of repo_disk)) /\
  temp_dir_of "repo" = None /\
  fst (perform_scan bare_env "repo" None (world_of repo_disk)) = Ok true /\
  emitted (fun e => workspace_event e = false) (world_of repo_disk)
    (snd (perform_scan bare_env "repo" None (world_of repo_disk))).
Proof.
  apply (C8_local_repository_resolves_to_itself bare_env "repo" None
           (world_of repo_disk)).
  - reflexivity.
  - vm_compute. reflexivity.
  - vm_compute. reflexivity.
Defined.


(** A scan of a URL on the lab machine goes through, and leaves the two
    raw reports and no workspace. *)
Example remote_scan_on_lab :
  let '(r, w') := perform_scan lab_env sample_url None (world_of ∅) in
  r = Ok true /\
  fs w' !! SECRETS_REPORT_FILENAME = Some (File "{}") /\
  fs w' !! VULN_REPORT_FILENAME = Some (File "[]") /\
  fs w' !! "temp_repo" = None.
Proof. vm_compute. repeat split. Qed.

(** The decoder reads back what the encoder writes. *)
Example dumps_loads :
  PyJson.loads
    (PyJson.dumps (Some 4%nat)
       (JDict [("secrets", secrets_not_run);
               ("vulnerabilities", JList [JInt (-3); JStr "a b"; JNull])]))
  = Ok (JDict [("secrets", secrets_not_run);
               ("vulnerabilities", JList [JInt (-3); JStr "a b"; JNull])]).
Proof. vm_compute. reflexivity. Qed.

(** ** Beyond the claims *)

(** ** [is_git_repository] and [clone_repository] on their own *)

Lemma lstrip_all_space ws s : all_space ws = true -> lstrip (ws +:+ s) = lstrip s.
Proof.
  induction ws as [| c ws IH]; simpl; [reflexivity |].
  intros H. apply andb_true_iff in H as (Hc & Hws). rewrite Hc. by apply IH.
Qed.

Lemma rstrip_all_space ws : all_space ws = true -> rstrip ws = EmptyString.
Proof.
  induction ws as [| c ws IH]; simpl; [reflexivity |].
  intros H. apply andb_true_iff in H as (Hc & Hws). rewrite (IH Hws). by rewrite Hc.
Qed.

Lemma rstrip_app_all_space s ws :
  all_space ws = true -> rstrip (s +:+ ws) = rstrip s.
Proof.
  intros Hws. induction s as [| c s IH]; simpl.
  - by apply rstrip_all_space.
  - by rewrite IH.
Qed.

Lemma strip_padded_true ws1 ws2 :
  all_space ws1 = true -> all_space ws2 = true ->
  strip (ws1 +:+ "true" +:+ ws2) = "true".
Proof.
  intros H1 H2. unfold strip. rewrite (lstrip_all_space _ _ H1).
  change (lstrip ("true" +:+ ws2)) with ("true" +:+ ws2).
  by rewrite (rstrip_app_all_space _ _ H2).
Qed.

(** White space beyond ASCII is stripped too: here a no-break space
    (U+00A0), an em space (U+2003) and a newline after [true], and an
    ideographic space (U+3000) before it. *)
Example strip_unicode_space :
  strip (utf8 [227; 128; 128]%nat +:+ "true" +:+
         utf8 [194; 160]%nat +:+ utf8 [226; 128; 131]%nat +:+ utf8 [10]%nat)
  = "true".
Proof. vm_compute. reflexivity. Qed.

(** So [git] printing [true], a no-break space and a newline is a yes. *)
Example git_answer_with_no_break_space :
  fst (is_git_repository
         {| run_process := fun _ _ w =>
              (Exited (mkCompleted 0 ("true" +:+ utf8 [194; 160]%nat +:+ newline)
                         EmptyString),
               fs w);
            os_fault := no_fault;
            json_loads := PyJson.loads; json_dumps := PyJson.dumps;
            clock := fun w => slept (trace w) |}
         "work" (world_of ∅))
  = Ok true.
Proof. vm_compute. reflexivity. Qed.

Ltac run_git :=
  unfold is_git_repository, GIT_REV_PARSE, mbind, M_bind, mret, M_ret, gets,
    try_except, subprocess_run, syscall_result, logging, emit;
  simpl.

Lemma is_git_repository_answer env path w :
  exists b,
    fst (is_git_repository env path w) = Ok b /\
    (b = true <->
     os_path_isdir_in (fs w) path ".git" = true \/
     exists r,
       fst (run_process env GIT_REV_PARSE (Some path) w) = Exited r /\
       returncode r = 0 /\ strip (stdout r) = "true").
Proof.
  run_git.
  destruct (os_path_isdir_in (fs w) path ".git") eqn:Hgit; simpl.
  { exists true. split; [reflexivity |]. split; auto. }
  destruct (run_process env _ (Some path) w) as [[r | e] fs'] eqn:Hrun; simpl.
  - destruct (returncode r =? 0) eqn:Hrc; simpl.
    + destruct (String.eqb_spec (strip (stdout r)) "true") as [Hs | Hs]; simpl.
      * exists true. split; [reflexivity |]. split; [| reflexivity].
        intros _. right. exists r. apply Z.eqb_eq in Hrc. auto.
      * exists false. split; [reflexivity |]. split; [discriminate |].
        intros [? | (r' & Hr & _ & Hs')]; [discriminate |]. congruence.
    + exists false. split; [reflexivity |]. split; [discriminate |].
      intros [? | (r' & Hr & Hrc' & _)]; [discriminate |].
      apply Z.eqb_neq in Hrc. congruence.
  - exists false. split; [by destruct e |]. split; [discriminate |].
    intros [? | (r' & Hr & _)]; discriminate.
Qed.

(** X1: [is_git_repository] never raises, and answers [True] exactly when
    the path holds a [.git] directory or [git rev-parse
    --is-inside-work-tree], run in the path, exits with 0 and prints
    [true], the white space around it stripped as [str.strip] does (every
    code point of [str.isspace], those beyond ASCII too). *)
Theorem X1_is_git_repository_answer env path w :
  exists b,
    fst (is_git_repository env path w) = Ok b /\
    (b = true <->
     os_path_isdir_in (fs w) path ".git" = true \/
     exists r,
       fst (run_process env GIT_REV_PARSE (Some path) w) = Exited r /\
       returncode r = 0 /\ strip (stdout r) = "true").
Proof. apply is_git_repository_answer. Qed.

(** X2: with a [.git] directory in the path no process is started and
    nothing is logged or changed; without one, exactly one process is
    started, [git rev-parse] in the path, the disk is what that process
    left, and the only thing ever logged is one error when starting it
    raised something other than [FileNotFoundError]: a missing [git]
    silently gives [False]. *)
Theorem X2_is_git_repository_effects env path w :
  (os_path_isdir_in (fs w) path ".git" = true ->
   is_git_repository env path w = (Ok true, w)) /\
  (os_path_isdir_in (fs w) path ".git" = false ->
   exists ok logs,
     snd (is_git_repository env path w)
     = {| fs := snd (run_process env GIT_REV_PARSE (Some path) w);
          trace := (logs ++ Sys (Spawn GIT_REV_PARSE (Some path)) ok :: trace w)%list |} /\
     match fst (run_process env GIT_REV_PARSE (Some path) w) with
     | Exited _ => ok = true /\ logs = []
     | SpawnRaises (FileNotFoundError _) =>
         ok = false /\ logs = [] /\ fst (is_git_repository env path w) = Ok false
     | SpawnRaises e =>
         ok = false /\
         logs = [Log ERROR ("Error checking git repository: " +:+ exn_str e)] /\
         fst (is_git_repository env path w) = Ok false
     end).
Proof.
  run_git. split; intros Hgit; rewrite Hgit; simpl; [reflexivity |].
  destruct (run_process env _ (Some path) w) as [[r | e] fs'] eqn:Hrun; simpl.
  - exists true, []. split; [| done].
    by destruct ((returncode r =? 0) && (strip (stdout r) =? "true")%string).
  - destruct e; simpl;
      first [ by exists false, []
            | eexists false, [_]; split; [reflexivity |]; done ].
Qed.

(** X3: the answer of [git] is read after [strip]: when the path has no
    [.git] directory and [git rev-parse] exits with 0 printing [true]
    surrounded by any white space (the newline [git] prints, for one),
    [is_git_repository] answers [True]. *)
Theorem X3_git_answer_is_stripped env path w r ws1 ws2 :
  os_path_isdir_in (fs w) path ".git" = false ->
  fst (run_process env GIT_REV_PARSE (Some path) w) = Exited r ->
  returncode r = 0 ->
  stdout r = ws1 +:+ "true" +:+ ws2 ->
  all_space ws1 = true -> all_space ws2 = true ->
  fst (is_git_repository env path w) = Ok true.
Proof.
  intros Hgit Hrun Hrc Hout H1 H2.
  destruct (is_git_repository_answer env path w) as (b & Hb & Hiff).
  rewrite Hb. f_equal. apply Hiff. right. exists r.
  split; [exact Hrun |]. split; [exact Hrc |].
  rewrite Hout. by apply strip_padded_true.
Qed.

(** X4: [clone_repository] returns normally exactly when [git clone] exits
    with 0.  It never swallows a failure: a non-zero exit is raised as
    [CalledProcessError] with the command, the exit code and what [git]
    wrote to its standard error, and an exception of the start itself is
    raised again as it is.  Either way exactly one process was started,
    [git clone repo_url destination_path], the disk is what it left, and
    one line was logged after it. *)
Theorem X4_clone_repository_outcome env repo_url destination_path w :
  let w0 := cloning repo_url destination_path w in
  let argv := GIT_CLONE repo_url destination_path in
  let out := clone_repository env repo_url destination_path w in
  (fst out = Ok tt <->
   exists r, fst (run_process env argv None w0) = Exited r /\ returncode r = 0) /\
  (forall r, fst (run_process env argv None w0) = Exited r -> returncode r <> 0 ->
             fst out = Raise (CalledProcessError argv (returncode r) (stderr r))) /\
  (forall e, fst (run_process env argv None w0) = SpawnRaises e -> fst out = Raise e) /\
  exists (line : string) (ok : bool),
    snd out = {| fs := snd (run_process env argv None w0);
                 trace := Log (if ok then INFO else ERROR) line
                          :: Sys (Spawn argv None) ok :: trace w0 |} /\
    (ok = true <-> fst out = Ok tt).
Proof.
  unfold clone_repository, cloning, GIT_CLONE, mbind, M_bind, mret, M_ret,
    try_except, subprocess_run, syscall_result, logging, raise, emit.
  simpl.
  destruct (run_process env _ None _) as [[r | e] fs'] eqn:Hrun; simpl.
  - destruct (returncode r =? 0) eqn:Hrc; simpl.
    + apply Z.eqb_eq in Hrc.
      split; [split; eauto |]. split; [intros r' ? ?; simplify_eq; done |].
      split; [discriminate |]. by eexists _, true.
    + apply Z.eqb_neq in Hrc.
      split; [split; [discriminate | intros (r' & ? & ?); simplify_eq; done] |].
      split; [intros r' ? ?; by simplify_eq |].
      split; [discriminate |]. eexists _, false. split; [reflexivity |].
      split; discriminate.
  - split; [split; [by destruct e | intros (r' & ? & ?); discriminate] |].
    split; [discriminate |].
    split; [intros e' ?; simplify_eq; by destruct e' |].
    destruct e; simpl; eexists _, false; (split; [reflexivity |]);
      split; discriminate.
Qed.

(** *** The adapters on their own *)

Ltac run_adapter :=
  unfold scan_secrets, run_nuclei, run_testssl, entered, EMPTY_FINDINGS, banner,
    mbind, M_bind, mret, M_ret, try_except, subprocess_run, write_file,
    syscall_result, logging, raise, emit;
  simpl.

(** X5: when [detect-secrets] ends with [No secrets found!] somewhere in
    its standard error, whatever its exit code, [scan_secrets] replaces the
    secrets report by the empty document [dump({})] and returns [True]
    (the write not being refused): "ran and found nothing" leaves a
    report, whatever the tool itself had written there. *)
Theorem X5_no_secrets_leaves_empty_report env target w r fs' :
  no_io_fault env ->
  run_process env (secrets_command target) None (entered "detect-secrets" target w)
  = (Exited r, fs') ->
  contains "No secrets found!" (stderr r) = true ->
  os_path_isdir fs' SECRETS_REPORT_FILENAME = false ->
  fst (scan_secrets env target w) = Ok true /\
  fs (snd (scan_secrets env target w))
  = <[SECRETS_REPORT_FILENAME := File (EMPTY_FINDINGS env)]> fs'.
Proof.
  intros Hnf Hrun Hmsg Hdir. unfold no_io_fault in Hnf. run_adapter.
  unfold entered, banner, emit in Hrun. simpl in Hrun. rewrite Hrun. simpl. rewrite Hmsg, andb_false_r. simpl.
  rewrite Hnf. unfold os_path_isdir in Hdir.
  destruct (fs' !! SECRETS_REPORT_FILENAME) as [[c | d] |]; try discriminate;
    simpl; done.
Qed.

(** X6: when [detect-secrets] ends without that message, [scan_secrets]
    writes nothing itself, so the disk is what the tool left, and it
    returns [True] whatever the exit code: a non-zero exit is only
    warned about. *)
Theorem X6_secrets_exit_code_is_only_warned env target w r fs' :
  run_process env (secrets_command target) None (entered "detect-secrets" target w)
  = (Exited r, fs') ->
  contains "No secrets found!" (stderr r) = false ->
  fst (scan_secrets env target w) = Ok true /\
  fs (snd (scan_secrets env target w)) = fs' /\
  (returncode r <> 0 ->
   exists line, In (Log WARNING line) (trace (snd (scan_secrets env target w)))).
Proof.
  intros Hrun Hmsg. run_adapter. unfold entered, banner, emit in Hrun. simpl in Hrun. rewrite Hrun. simpl.
  rewrite Hmsg, andb_true_r. simpl.
  destruct (returncode r =? 0) eqn:Hrc; simpl.
  - apply Z.eqb_eq in Hrc. repeat split; done.
  - repeat split. intros _. eexists. simpl. right. left. reflexivity.
Qed.

(** X7: [scan_secrets] never raises, and a tool that cannot be started
    gives [False], with the disk as the failed start left it. *)
Theorem X7_scan_secrets_contains_failures env target w :
  (exists b, fst (scan_secrets env target w) = Ok b) /\
  (forall e fs',
     run_process env (secrets_command target) None (entered "detect-secrets" target w)
     = (SpawnRaises e, fs') ->
     fst (scan_secrets env target w) = Ok false /\
     fs (snd (scan_secrets env target w)) = fs').
Proof.
  split; [apply scan_secrets_total |].
  intros e fs' Hrun. run_adapter. unfold entered, banner, emit in Hrun. simpl in Hrun. rewrite Hrun. simpl.
  by destruct e.
Qed.

(** X8: [run_nuclei] guards itself: on a target that is no URL it starts
    no process, warns, returns [False] and leaves the disk alone. *)
Theorem X8_run_nuclei_refuses_non_url env target w :
  is_url target = false ->
  fst (run_nuclei env target w) = Ok false /\
  fs (snd (run_nuclei env target w)) = fs w /\
  exists line,
    trace (snd (run_nuclei env target w))
    = Log WARNING line :: trace (entered "nuclei" target w).
Proof.
  intros Hurl. run_adapter. rewrite Hurl. simpl. eauto.
Qed.

(** X9: for [nuclei] on a URL, and for [testssl.sh] on any target (it has
    no guard of its own), the adapter returns [True] exactly when the tool
    could be started: its exit code never matters.  The adapter writes
    nothing itself: the disk is what the tool left. *)
Theorem X9_url_adapters_ignore_exit_code env target w :
  (is_url target = true ->
   let run := run_process env (nuclei_command target) None (entered "nuclei" target w) in
   (fst (run_nuclei env target w) = Ok true <-> exists r, fst run = Exited r) /\
   (fst (run_nuclei env target w) = Ok false <-> exists e, fst run = SpawnRaises e) /\
   fs (snd (run_nuclei env target w)) = snd run) /\
  (let run := run_process env (testssl_command target) None
                (entered "testssl.sh" target w) in
   (fst (run_testssl env target w) = Ok true <-> exists r, fst run = Exited r) /\
   (fst (run_testssl env target w) = Ok false <-> exists e, fst run = SpawnRaises e) /\
   fs (snd (run_testssl env target w)) = snd run).
Proof.
  split; [intros Hurl |]; run_adapter; rewrite ?Hurl; simpl;
    match goal with
    | |- context [run_process ?e ?a ?c ?w0] =>
        destruct (run_process e a c w0) as [[r | ex] fs'] eqn:Hrun
    end; simpl.
  1, 3: destruct (returncode r =? 0); simpl;
        (split; [split; eauto |]); (split; [| reflexivity]);
        (split; [discriminate | intros (? & ?); discriminate]).
  all: destruct ex; simpl;
       (split; [split; [discriminate | intros (? & ?); discriminate] |]);
       (split; [| reflexivity]); split; eauto.
Qed.

(** *** More on [perform_scan] *)

(** X10: a target that is neither a URL nor an existing directory is
    refused at once: [perform_scan] returns [False], logs the one error of
    line 223, starts nothing and changes nothing. *)
Theorem X10_invalid_target_is_refused env target tools w :
  is_url target = false ->
  os_path_isdir (fs w) target = false ->
  perform_scan env target tools w
  = (Ok false,
     emit (Log ERROR ("Invalid target: " +:+ target +:+
                      ". Must be a valid directory path or a remote git URL.")) w).
Proof.
  intros Hurl Hdir.
  unfold perform_scan, scan_body, resolve_target, temp_dir_of, cleanup.
  rewrite Hurl. unfold try_except, mbind, M_bind, gets, logging, mret, M_ret.
  by rewrite Hdir.
Qed.

Lemma run_tools_requested env target scan_target tools1 tools2 :
  (forall tool, In tool ALL_TOOLS -> requested tool tools1 = requested tool tools2) ->
  run_tools env target scan_target tools1 = run_tools env target scan_target tools2.
Proof.
  intros H. unfold run_tools. rewrite !requested_mem.
  rewrite (H "detect-secrets"), (H "nuclei"), (H "testssl.sh");
    [reflexivity | simpl; tauto ..].
Qed.

(** X11: the tool list is used as a set of the three known names: two
    lists that ask for the same ones give the same scan, so order,
    repetitions and unknown names do not matter, and no list, the empty
    list and the list of all three are the same request.  The tools always
    run in the order detect-secrets, nuclei, testssl.sh. *)
Theorem X11_tools_are_a_set env target tools1 tools2 w :
  (forall tool, In tool ALL_TOOLS -> requested tool tools1 = requested tool tools2) ->
  perform_scan env target tools1 w = perform_scan env target tools2 w.
Proof.
  intros H. unfold perform_scan.
  rewrite (scan_body_cases env target tools1), (scan_body_cases env target tools2).
  destruct (resolve_target env target w) as [[[p |] | e] w1]; try reflexivity.
  by rewrite (run_tools_requested env target p tools1 tools2 H).
Qed.

Lemma resolve_target_expected env target :
  always (emitted (expected_process target)) (resolve_target env target).
Proof.
  unfold resolve_target, check_git, clone_repository, is_git_repository,
    expected_process, scan_commands.
  destruct (is_url target) eqn:Hurl;
    emits_by ltac:(first [exact I | simpl; tauto]).
Qed.

Lemma run_tools_expected env target tools :
  always (emitted (expected_process target))
    (run_tools env target (scan_path target) tools).
Proof.
  unfold run_tools, scan_secrets, run_nuclei, run_testssl, expected_process,
    scan_commands, scan_path.
  destruct (is_url target) eqn:Hurl;
    emits_by ltac:(first [exact I | simpl; tauto]).
Qed.

Lemma resolved_scan_path env target w p w1 :
  resolved env target w p w1 -> p = scan_path target.
Proof. unfold scan_path. intros [wa wb w1' -> _ _ _ | w1' -> _ _]; reflexivity. Qed.

Lemma scan_body_expected env target tools :
  always (emitted (expected_process target)) (scan_body env target tools).
Proof.
  intros w r w' H. rewrite scan_body_cases in H.
  pose proof (resolve_target_expected env target w) as Hres.
  destruct (resolve_target env target w) as [[[p |] | e] w1] eqn:E.
  - apply resolve_target_spec, resolved_scan_path in E as Hp. subst p.
    transitivity w1; [by eapply Hres | by eapply run_tools_expected].
  - simplify_eq. by eapply Hres.
  - simplify_eq. transitivity w1; [by eapply Hres | by apply emitted_step].
Qed.

Lemma cleanup_expected env target temp_dir :
  always (emitted (expected_process target)) (cleanup env temp_dir).
Proof.
  unfold cleanup. emits_by ltac:(exact I).
Qed.

(** X12: a scan starts no process outside a fixed list.  For a URL:
    [git clone] of the URL into ["temp_repo"], [git rev-parse] inside
    ["temp_repo"], [detect-secrets] on ["temp_repo"], and [nuclei] and
    [testssl.sh] on the URL itself.  For any other target: [git rev-parse]
    inside the target and [detect-secrets] on the target.  So secrets are
    scanned in the working copy while the URL tools are pointed at the
    original URL. *)
Theorem X12_scan_starts_only_expected_processes env target tools w :
  emitted (expected_process target) w (snd (perform_scan env target tools w)).
Proof.
  eapply (always_perform_scan env (emitted (expected_process target)) target tools).
  - apply scan_body_expected.
  - apply cleanup_expected.
  - apply surjective_pairing.
Qed.

Lemma os_makedirs_on_file env p content w :
  fs w !! p = Some (File content) ->
  exists e,
    os_makedirs env p w
    = (Raise e, {| fs := fs w; trace := Sys (Makedirs p) false :: trace w |}).
Proof.
  intros H. unfold os_makedirs, syscall_result.
  destruct (os_fault env (Makedirs p) w); [by eexists |].
  rewrite H. by eexists.
Qed.

Lemma cleanup_on_file env d content w :
  fs w !! d = Some (File content) ->
  exists e,
    cleanup env (Some d) w
    = (Ok tt, {| fs := fs w;
                 trace := removal_failed d e :: Sys (Rmtree d) false :: trace w |}).
Proof.
  intros H.
  unfold cleanup, removal_failed, mbind, M_bind, mret, M_ret, gets, try_except,
    shutil_rmtree, syscall_result, os_path_exists, logging, emit.
  rewrite H.
  destruct (os_fault env (Rmtree d) w) as [e |]; [by exists e |].
  rewrite H. by eexists (OtherException _).
Qed.

(** X13: a regular file named ["temp_repo"] blocks every scan of a URL:
    the workspace cannot be made, so the scan returns [False] without
    starting [git] or any tool, and since the removal of a file by
    [shutil.rmtree] fails as well, the disk is left exactly as it was. *)
Theorem X13_file_in_place_of_workspace env target tools w content :
  is_url target = true ->
  fs w !! "temp_repo" = Some (File content) ->
  fst (perform_scan env target tools w) = Ok false /\
  fs (snd (perform_scan env target tools w)) = fs w /\
  emitted no_process w (snd (perform_scan env target tools w)).
Proof.
  intros Hurl Hfile.
  set (w0 := emit (Log INFO ("Target '" +:+ target +:+
                             "' looks like a remote URL - attempting to clone.")) w).
  destruct (os_makedirs_on_file env "temp_repo" content w0 Hfile) as (e & Hmk).
  assert (scan_body env target tools w
          = (Ok false,
             emit (Log ERROR ("An error occurred during the scan: " +:+ exn_str e))
               {| fs := fs w; trace := Sys (Makedirs "temp_repo") false :: trace w0 |}))
    as Hbody.
  { unfold scan_body, resolve_target. rewrite Hurl.
    unfold try_except, mbind, M_bind, logging at 1. fold w0. by rewrite Hmk. }
  unfold perform_scan, temp_dir_of. rewrite Hbody, Hurl.
  match goal with
  | |- context [cleanup env (Some "temp_repo") ?w1] =>
      destruct (cleanup_on_file env "temp_repo" content w1 Hfile) as (e' & ->)
  end.
  simpl. split; [reflexivity |]. split; [reflexivity |].
  unfold emitted. grew. repeat constructor.
Qed.

(** *** More on [consolidate_reports] *)

Lemma consolidate_reports_io env output_filename :
  always (emitted (report_io output_filename)) (consolidate_reports env output_filename).
Proof.
  unfold consolidate_reports, build_report, report_io.
  emits_by ltac:(first [exact I | reflexivity | by left | by right]).
Qed.

(** X14: [consolidate_reports] never raises, whatever is on the disk and
    whatever the environment does; a path that names another file than the
    output path does (under whatever spelling, see [same_file]) keeps the
    regular file it held, and stays absent if it was absent; and all it
    does is log, read the two raw reports and write the output file: it
    starts no process and makes or removes no directory. *)
Theorem X14_consolidate_reports_is_contained env output_filename w :
  fst (consolidate_reports env output_filename w) = Ok tt /\
  (forall p, ~ same_file (fs w) p output_filename ->
     (forall content,
        fs w !! p = Some (File content) ->
        fs (snd (consolidate_reports env output_filename w)) !! p
        = Some (File content)) /\
     (fs w !! p = None ->
      fs (snd (consolidate_reports env output_filename w)) !! p = None)) /\
  emitted (report_io output_filename) w
    (snd (consolidate_reports env output_filename w)).
Proof.
  destruct (consolidate_reports env output_filename w) as [r w'] eqn:E. simpl.
  pose proof (consolidate_reports_io env output_filename w r w' E) as Hio.
  apply consolidate_run in E as (-> & evs & _ & Hc).
  split; [reflexivity |]. split; [| exact Hio].
  intros p Hp.
  assert (fs w' !! p = fs w !! p) as ->; [| by split].
  destruct Hc as [(-> & _) | (d & _ & _ & -> & _)]; [reflexivity |].
  apply disk_lookup_insert_ne. intros Hsame. by apply Hp.
Qed.

(** X15: the document written is always an object of exactly the two keys
    [secrets] and [vulnerabilities], in that order; and a raw report that is
    on disk and loads is embedded as it was loaded, under its category. *)
Theorem X15_loaded_reports_are_embedded
  env output_filename w r w' evs content :
  consolidate_reports env output_filename w = (r, w') ->
  trace w' = (evs ++ trace w)%list ->
  wrote output_filename content evs ->
  exists sec vul,
    content = document env [("secrets", sec); ("vulnerabilities", vul)] /\
    (forall text j, fs w !! SECRETS_REPORT_FILENAME = Some (File text) ->
                    json_loads env text = Ok j -> sec = j) /\
    (forall text j, fs w !! VULN_REPORT_FILENAME = Some (File text) ->
                    json_loads env text = Ok j -> vul = j).
Proof.
  intros Hrun Htr Hw.
  apply consolidate_run in Hrun as (_ & evs' & Htr' & Hc).
  assert (evs' = evs) as -> by (rewrite Htr in Htr'; by apply app_inv_tail in Htr').
  destruct Hc as [(_ & Hn) | (data & Hdata & _ & _ & _ & Honly)];
    [by apply Hn in Hw |].
  apply Honly in Hw as (_ & ->).
  unfold report_data in Hdata.
  repeat (case_match; simplify_eq/=; try done);
    eexists _, _; (split; [reflexivity |]);
    split; intros text j' ? ?; simplify_eq; congruence.
Qed.

(** X16: the load of the secrets report is not guarded (line 177): when
    that file is on disk and [json.load] raises on it, whatever the
    exception, or when the path is a directory, [consolidate_reports]
    writes nothing and leaves the disk exactly as it was. *)
Theorem X16_unloadable_secrets_report_writes_nothing env output_filename w :
  (exists text e, fs w !! SECRETS_REPORT_FILENAME = Some (File text) /\
                  json_loads env text = Raise e) \/
  (exists entries, fs w !! SECRETS_REPORT_FILENAME = Some (Dir entries)) ->
  fs (snd (consolidate_reports env output_filename w)) = fs w /\
  forall evs c,
    trace (snd (consolidate_reports env output_filename w)) = (evs ++ trace w)%list ->
    ~ wrote output_filename c evs.
Proof.
  intros H.
  destruct (consolidate_reports env output_filename w) as [r w'] eqn:E. simpl.
  apply consolidate_run in E as (_ & evs & Htr & Hc).
  assert (report_data env (fs w !! SECRETS_REPORT_FILENAME)
            (fs w !! VULN_REPORT_FILENAME) = None) as Hnone.
  { unfold report_data.
    destruct H as [(text & e & -> & ->) | (entries & ->)]; reflexivity. }
  destruct Hc as [(Hfs & Hn) | (data & Hdata & _)]; [| congruence].
  split; [exact Hfs |].
  intros evs' c Htr'. rewrite Htr in Htr'. apply app_inv_tail in Htr'. subst evs'.
  apply Hn.
Qed.

(** *** More on the scheduler *)

(** X17: a schedule type outside [VALID_SCHEDULES] makes [schedule_scan]
    log one error and return at once: no job is registered, no scan is run
    and the loop is not entered. *)
Theorem X17_unknown_schedule_type_returns env fuel target schedule_type tools w :
  ~ In schedule_type VALID_SCHEDULES ->
  schedule_scan env fuel target schedule_type tools w
  = (Ok (Some tt), emit (Log ERROR ("Invalid schedule type: " +:+ schedule_type)) w).
Proof.
  intros Hni. unfold schedule_scan, VALID_SCHEDULES in *. simpl in Hni.
  assert (forall s, In s ["daily"; "weekly"; "monthly"; "once"] ->
                    String.eqb schedule_type s = false) as Hne.
  { intros s Hs. apply String.eqb_neq. intros ->. apply Hni. simpl in Hs. tauto. }
  rewrite !Hne by (simpl; tauto). reflexivity.
Qed.

Lemma awake_slept evs : Forall awake evs -> slept evs = 0.
Proof.
  induction 1 as [| e evs He _ IH]; [reflexivity |].
  unfold slept in *. simpl. rewrite IH. by destruct e as [| [] ?].
Qed.

Lemma slept_app evs1 evs2 : slept (evs1 ++ evs2) = slept evs1 + slept evs2.
Proof.
  unfold slept. induction evs1 as [| e evs1 IH]; simpl; [reflexivity |].
  rewrite IH. destruct e as [| [] ?]; lia.
Qed.

Lemma perform_scan_awake env target tools :
  always (emitted awake) (perform_scan env target tools).
Proof.
  apply always_perform_scan; [apply _ | |].
  - unfold scan_body, resolve_target, check_git, clone_repository, run_tools,
      is_git_repository, scan_secrets, run_nuclei, run_testssl.
    emits_by ltac:(exact I).
  - unfold cleanup. emits_by ltac:(exact I).
Qed.

Lemma consolidate_reports_awake env output_filename :
  always (emitted awake) (consolidate_reports env output_filename).
Proof.
  unfold consolidate_reports, build_report. emits_by ltac:(exact I).
Qed.

Lemma scheduled_job_awake env target tools :
  always (emitted awake) (scheduled_job env target tools).
Proof.
  unfold scheduled_job.
  pose proof (perform_scan_awake env target tools).
  pose proof (consolidate_reports_awake env DEFAULT_OUTPUT).
  emits_by ltac:(exact I); eauto.
Qed.

Lemma run_pending_awake env jobs : always (emitted awake) (run_pending env jobs).
Proof.
  induction jobs as [| j rest IH]; [apply always_ret; apply _ |].
  change (run_pending env (j :: rest)) with
    (j' ← (now ← datetime_now env;
           if next_run j <=? now
           then scheduled_job env (job_target j) (job_tools j);;
                now' ← datetime_now env;
                mret (mkJob (job_period j) (now' + job_period j)
                        (job_target j) (job_tools j))
           else mret j);
     rest' ← run_pending env rest;
     mret (j' :: rest')).
  pose proof (scheduled_job_awake env (job_target j) (job_tools j)).
  repeat first
    [ assumption
    | apply always_ret; apply _
    | apply always_datetime_now; apply _
    | apply always_bind; [apply _ | | intros ?]
    | match goal with
      | |- always _ (if ?b then _ else _) => destruct b
      end ].
Qed.

(** X18: the loop polls once a minute: after any number of turns, the
    sleeps of the loop add up to 60 seconds a turn, and nothing that runs
    inside a turn (the pending jobs, their scans and consolidations) ever
    sleeps. *)
Theorem X18_polling_loop_sleeps_a_minute_a_turn env fuel jobs w :
  exists evs,
    trace (snd (polling_loop env fuel jobs w)) = (evs ++ trace w)%list /\
    slept evs = 60 * Z.of_nat fuel.
Proof.
  revert jobs w. induction fuel as [| fuel IH]; intros jobs w.
  - exists []. split; reflexivity.
  - change (polling_loop env (S fuel) jobs) with
      (jobs' ← run_pending env jobs; time_sleep 60;; polling_loop env fuel jobs').
    unfold mbind, M_bind.
    destruct (run_pending_total env jobs w) as (jobs' & Hj).
    pose proof (run_pending_awake env jobs w) as Haw.
    destruct (run_pending env jobs w) as [r w1]. simpl in Hj. subst r.
    destruct (Haw _ _ eq_refl) as (evs1 & Htr1 & HF1).
    unfold time_sleep at 1.
    destruct (IH jobs' (emit (Sys (Sleep 60) true) w1)) as (evs2 & Htr2 & Hs2).
    exists (evs2 ++ Sys (Sleep 60) true :: evs1)%list. split.
    + rewrite Htr2. simpl. rewrite Htr1. by rewrite <- app_assoc.
    + rewrite slept_app, Hs2.
      change (slept (Sys (Sleep 60) true :: evs1)) with (60 + slept evs1).
      rewrite (awake_slept _ HF1). lia.
Qed.

(** *** Every tool asked for gets its turn *)

Lemma started_grows argv w w1 w2 :
  started argv w w1 -> grows w1 w2 -> started argv w w2.
Proof.
  intros (evs1 & H1 & ok & Hin) (evs2 & H2 & _).
  exists (evs2 ++ evs1)%list. split; [rewrite H2, H1; apply app_assoc |].
  exists ok. apply in_or_app. by right.
Qed.

Lemma grows_started argv w w1 w2 :
  grows w w1 -> started argv w1 w2 -> started argv w w2.
Proof.
  intros (evs1 & H1 & _) (evs2 & H2 & ok & Hin).
  exists (evs2 ++ evs1)%list. split; [rewrite H2, H1; apply app_assoc |].
  exists ok. apply in_or_app. by left.
Qed.

Ltac grows_all := emits_by ltac:(exact I).

Lemma scan_secrets_grows env target : always grows (scan_secrets env target).
Proof. unfold scan_secrets, grows. grows_all. Qed.

Lemma run_nuclei_grows env target : always grows (run_nuclei env target).
Proof. unfold run_nuclei, grows. grows_all. Qed.

Lemma run_testssl_grows env target : always grows (run_testssl env target).
Proof. unfold run_testssl, grows. grows_all. Qed.

Lemma resolve_target_grows env target : always grows (resolve_target env target).
Proof.
  unfold resolve_target, check_git, clone_repository, is_git_repository, grows.
  grows_all.
Qed.

Lemma cleanup_grows env temp_dir : always grows (cleanup env temp_dir).
Proof. unfold cleanup, grows. grows_all. Qed.

Lemma scan_secrets_started env target w :
  started (secrets_command target) w (snd (scan_secrets env target w)).
Proof.
  unfold started. run_adapter.
  repeat (case_match; simplify_eq/=); grew; eexists; simpl; eauto 10.
Qed.

Lemma run_nuclei_started env target w :
  is_url target = true ->
  started (nuclei_command target) w (snd (run_nuclei env target w)).
Proof.
  intros Hurl. unfold started. run_adapter. rewrite Hurl. simpl.
  repeat (case_match; simplify_eq/=); grew; eexists; simpl; eauto 10.
Qed.

Lemma run_testssl_started env target w :
  started (testssl_command target) w (snd (run_testssl env target w)).
Proof.
  unfold started. run_adapter.
  repeat (case_match; simplify_eq/=); grew; eexists; simpl; eauto 10.
Qed.

Lemma run_tools_steps env target scan_target tools w :
  run_tools env target scan_target tools w
  = (Ok true,
     snd (testssl_step env target tools
            (snd (nuclei_step env target tools
                    (snd (secrets_step env scan_target tools w)))))).
Proof.
  pose proof (run_tools_true env target scan_target tools w) as Htrue.
  destruct (run_tools env target scan_target tools w) as [r w3] eqn:E.
  simpl in Htrue. subst r. f_equal.
  unfold run_tools in E. rewrite !requested_mem in E.
  fold (secrets_step env scan_target tools) in E.
  fold (nuclei_step env target tools) in E.
  fold (testssl_step env target tools) in E.
  apply bind_inv in E as [(u1 & w1 & E1 & E) | (e & _ & ?)]; [| discriminate].
  apply bind_inv in E as [(u2 & w2 & E2 & E) | (e & _ & ?)]; [| discriminate].
  apply bind_inv in E as [(u3 & w3' & E3 & E) | (e & _ & ?)]; [| discriminate].
  inversion E; subst. rewrite E1. simpl. rewrite E2. simpl. by rewrite E3.
Qed.

Lemma secrets_step_grows env scan_target tools :
  always grows (secrets_step env scan_target tools).
Proof.
  unfold secrets_step, grows. pose proof (scan_secrets_grows env scan_target).
  unfold grows in *. grows_all; eauto.
Qed.

Lemma nuclei_step_grows env target tools :
  always grows (nuclei_step env target tools).
Proof.
  unfold nuclei_step, grows. pose proof (run_nuclei_grows env target).
  unfold grows in *. grows_all; eauto.
Qed.

Lemma testssl_step_grows env target tools :
  always grows (testssl_step env target tools).
Proof.
  unfold testssl_step, grows. pose proof (run_testssl_grows env target).
  unfold grows in *. grows_all; eauto.
Qed.

Lemma step_snd {A : Type} (m : M A) w : m w = (fst (m w), snd (m w)).
Proof. apply surjective_pairing. Qed.

Lemma secrets_step_started env scan_target tools w :
  requested "detect-secrets" tools = true ->
  started (secrets_command scan_target) w (snd (secrets_step env scan_target tools w)).
Proof.
  intros Hreq. unfold secrets_step. rewrite Hreq. unfold mbind, M_bind.
  pose proof (scan_secrets_started env scan_target w) as Hs.
  destruct (scan_secrets_total env scan_target w) as (b & Hb).
  destruct (scan_secrets env scan_target w) as [r w1]. simpl in *. by subst r.
Qed.

Lemma nuclei_step_started env target tools w :
  is_url target = true -> requested "nuclei" tools = true ->
  started (nuclei_command target) w (snd (nuclei_step env target tools w)).
Proof.
  intros Hurl Hreq. unfold nuclei_step. rewrite Hreq, Hurl. simpl.
  unfold mbind, M_bind, gets. simpl.
  pose proof (run_nuclei_started env target w Hurl) as Hs.
  destruct (run_nuclei_total env target w) as (b & Hb).
  destruct (run_nuclei env target w) as [r w1]. simpl in *. by subst r.
Qed.

Lemma testssl_step_started env target tools w :
  is_url target = true -> requested "testssl.sh" tools = true ->
  started (testssl_command target) w (snd (testssl_step env target tools w)).
Proof.
  intros Hurl Hreq. unfold testssl_step. rewrite Hreq, Hurl.
  unfold mbind, M_bind.
  pose proof (run_testssl_started env target w) as Hs.
  destruct (run_testssl_total env target w) as (b & Hb).
  destruct (run_testssl env target w) as [r w1]. simpl in *. by subst r.
Qed.

(** X19: the adapters are independent: in a scan that goes through, every
    tool that was asked for and applies to the target is started, whatever
    the tools before it did (missing, failed, or raised): [detect-secrets]
    on the path the target resolved to, and for a URL [nuclei] and
    [testssl.sh] on the URL. *)
Theorem X19_every_requested_tool_is_started env target tools w :
  fst (perform_scan env target tools w) = Ok true ->
  (requested "detect-secrets" tools = true ->
   started (secrets_command (scan_path target)) w
     (snd (perform_scan env target tools w))) /\
  (is_url target = true -> requested "nuclei" tools = true ->
   started (nuclei_command target) w (snd (perform_scan env target tools w))) /\
  (is_url target = true -> requested "testssl.sh" tools = true ->
   started (testssl_command target) w (snd (perform_scan env target tools w))).
Proof.
  rewrite perform_scan_fst, perform_scan_snd, scan_body_cases.
  pose proof (resolve_target_grows env target w) as Hres.
  destruct (resolve_target env target w) as [[[p |] | e] w1] eqn:E;
    simpl; try discriminate.
  intros _.
  apply resolve_target_spec, resolved_scan_path in E as Hp. subst p.
  specialize (Hres _ _ eq_refl).
  rewrite run_tools_steps. simpl.
  set (w2 := snd (secrets_step env (scan_path target) tools w1)).
  set (w3 := snd (nuclei_step env target tools w2)).
  set (w4 := snd (testssl_step env target tools w3)).
  set (w5 := snd (cleanup env (temp_dir_of target) w4)).
  assert (grows w2 w3) as H23
    by (eapply nuclei_step_grows; apply step_snd).
  assert (grows w3 w4) as H34
    by (eapply testssl_step_grows; apply step_snd).
  assert (grows w4 w5) as H45
    by (eapply cleanup_grows; apply step_snd).
  assert (grows w1 w2) as H12
    by (eapply secrets_step_grows; apply step_snd).
  split; [| split].
  - intros Hreq. apply (grows_started _ w w1); [exact Hres |].
    apply (started_grows _ w1 w2); [by apply secrets_step_started |].
    transitivity w3; [exact H23 |]. by transitivity w4.
  - intros Hurl Hreq. apply (grows_started _ w w2); [by transitivity w1 |].
    apply (started_grows _ w2 w3); [by apply nuclei_step_started |].
    by transitivity w4.
  - intros Hurl Hreq. apply (grows_started _ w w3);
      [transitivity w1; [exact Hres |]; by transitivity w2 |].
    apply (started_grows _ w3 w4); [by apply testssl_step_started | exact H45].
Qed.

(** *** Closed examples for the adapters and the orchestrator *)

Lemma X1_is_git_repository_answer_witness :
  exists b, fst (is_git_repository bare_env "repo" (world_of repo_disk)) = Ok b /\
            b = true.
Proof.
  destruct (X1_is_git_repository_answer bare_env "repo" (world_of repo_disk))
    as (b & Hb & Hiff).
  exists b. split; [exact Hb |]. apply Hiff. left. vm_compute. reflexivity.
Defined.

Lemma X2_is_git_repository_effects_witness :
  is_git_repository bare_env "repo" (world_of repo_disk)
  = (Ok true, world_of repo_disk).
Proof.
  apply (proj1 (X2_is_git_repository_effects bare_env "repo" (world_of repo_disk))).
  vm_compute. reflexivity.
Defined.

Lemma X3_git_answer_is_stripped_witness :
  fst (is_git_repository git_env "work" (world_of ∅)) = Ok true.
Proof.
  apply (X3_git_answer_is_stripped git_env "work" (world_of ∅)
           (mkCompleted 0 ("true" +:+ newline) EmptyString) EmptyString newline);
    reflexivity.
Defined.

Lemma X4_clone_repository_outcome_witness :
  fst (clone_repository lab_env sample_url "temp_repo" (world_of ∅)) = Ok tt.
Proof.
  apply (proj1 (X4_clone_repository_outcome lab_env sample_url "temp_repo"
                  (world_of ∅))).
  eexists. split; vm_compute; reflexivity.
Defined.

Lemma X5_no_secrets_leaves_empty_report_witness :
  fst (scan_secrets lab_env "repo" (world_of repo_disk)) = Ok true /\
  fs (snd (scan_secrets lab_env "repo" (world_of repo_disk)))
  = <[SECRETS_REPORT_FILENAME := File (EMPTY_FINDINGS lab_env)]> repo_disk.
Proof.
  apply (X5_no_secrets_leaves_empty_report lab_env "repo" (world_of repo_disk)
           (mkCompleted 0 EmptyString "No secrets found!")).
  - intros c w. reflexivity.
  - reflexivity.
  - vm_compute. reflexivity.
  - vm_compute. reflexivity.
Defined.

Lemma X6_secrets_exit_code_is_only_warned_witness :
  fst (scan_secrets failing_env "repo" (world_of repo_disk)) = Ok true /\
  fs (snd (scan_secrets failing_env "repo" (world_of repo_disk))) = repo_disk /\
  exists line,
    In (Log WARNING line)
      (trace (snd (scan_secrets failing_env "repo" (world_of repo_disk)))).
Proof.
  destruct (X6_secrets_exit_code_is_only_warned failing_env "repo" (world_of repo_disk)
              (mkCompleted 2 EmptyString "boom") repo_disk) as (H1 & H2 & H3).
  - reflexivity.
  - vm_compute. reflexivity.
  - split; [exact H1 |]. split; [exact H2 |]. apply H3. discriminate.
Defined.

Lemma X7_scan_secrets_contains_failures_witness :
  fst (scan_secrets bare_env "repo" (world_of repo_disk)) = Ok false /\
  fs (snd (scan_secrets bare_env "repo" (world_of repo_disk))) = repo_disk.
Proof.
  eapply (proj2 (X7_scan_secrets_contains_failures bare_env "repo"
                   (world_of repo_disk))).
  reflexivity.
Defined.

Lemma X8_run_nuclei_refuses_non_url_witness :
  fst (run_nuclei lab_env "repo" (world_of repo_disk)) = Ok false /\
  fs (snd (run_nuclei lab_env "repo" (world_of repo_disk))) = repo_disk /\
  exists line,
    trace (snd (run_nuclei lab_env "repo" (world_of repo_disk)))
    = Log WARNING line :: trace (entered "nuclei" "repo" (world_of repo_disk)).
Proof.
  apply (X8_run_nuclei_refuses_non_url lab_env "repo" (world_of repo_disk)).
  reflexivity.
Defined.

Lemma X9_url_adapters_ignore_exit_code_witness :
  fst (run_nuclei failing_env sample_url (world_of ∅)) = Ok true.
Proof.
  destruct (X9_url_adapters_ignore_exit_code failing_env sample_url (world_of ∅))
    as (Hn & _).
  destruct (Hn eq_refl) as (Htrue & _ & _).
  apply Htrue. eexists. vm_compute. reflexivity.
Defined.

Lemma X10_invalid_target_is_refused_witness :
  perform_scan lab_env "git@example.org:r.git" None (world_of repo_disk)
  = (Ok false,
     emit (Log ERROR ("Invalid target: git@example.org:r.git" +:+
                      ". Must be a valid directory path or a remote git URL."))
       (world_of repo_disk)).
Proof.
  apply (X10_invalid_target_is_refused lab_env "git@example.org:r.git" None
           (world_of repo_disk)).
  - reflexivity.
  - vm_compute. reflexivity.
Defined.

Lemma X11_tools_are_a_set_witness :
  perform_scan lab_env sample_url
    (Some ["nuclei"; "nmap"; "detect-secrets"; "nuclei"]) (world_of ∅)
  = perform_scan lab_env sample_url (Some ["detect-secrets"; "nuclei"]) (world_of ∅).
Proof.
  apply X11_tools_are_a_set.
  intros tool [<- | [<- | [<- | []]]]; reflexivity.
Defined.

Lemma X13_file_in_place_of_workspace_witness :
  fst (perform_scan lab_env sample_url None (world_of blocked_disk)) = Ok false /\
  fs (snd (perform_scan lab_env sample_url None (world_of blocked_disk)))
  = blocked_disk /\
  emitted no_process (world_of blocked_disk)
    (snd (perform_scan lab_env sample_url None (world_of blocked_disk))).
Proof.
  apply (X13_file_in_place_of_workspace lab_env sample_url None
           (world_of blocked_disk) "not a directory").
  - reflexivity.
  - vm_compute. reflexivity.
Defined.

Lemma X14_consolidate_reports_is_contained_witness :
  fs (snd (consolidate_reports bare_env DEFAULT_OUTPUT (world_of reports_disk)))
    !! SECRETS_REPORT_FILENAME
  = Some (File "{}").
Proof.
  apply (proj1 (proj2 (X14_consolidate_reports_is_contained bare_env
                         DEFAULT_OUTPUT (world_of reports_disk)))).
  - vm_compute. discriminate.
  - vm_compute. reflexivity.
Defined.

Lemma X15_loaded_reports_are_embedded_witness :
  exists sec vul,
    PyJson.dumps (Some 4%nat)
      (JDict [("secrets", JDict []); ("vulnerabilities", JList [JInt 1; JInt 2])])
    = document bare_env [("secrets", sec); ("vulnerabilities", vul)] /\
    sec = JDict [] /\ vul = JList [JInt 1; JInt 2].
Proof.
  destruct (X15_loaded_reports_are_embedded bare_env DEFAULT_OUTPUT
              (world_of reports_disk) (Ok tt)
              (snd (consolidate_reports bare_env DEFAULT_OUTPUT (world_of reports_disk)))
              (trace (snd (consolidate_reports bare_env DEFAULT_OUTPUT
                             (world_of reports_disk))))
              (PyJson.dumps (Some 4%nat)
                 (JDict [("secrets", JDict []);
                         ("vulnerabilities", JList [JInt 1; JInt 2])])))
    as (sec & vul & Hdoc & Hs & Hv).
  - vm_compute. reflexivity.
  - vm_compute. reflexivity.
  - vm_compute. right. left. reflexivity.
  - exists sec, vul. split; [exact Hdoc |]. split.
    + apply (Hs "{}"); vm_compute; reflexivity.
    + apply (Hv "[1, 2]"); vm_compute; reflexivity.
Defined.

Lemma X16_unloadable_secrets_report_writes_nothing_witness :
  fs (snd (consolidate_reports bare_env DEFAULT_OUTPUT
             (world_of {[ SECRETS_REPORT_FILENAME := File "{" ]})))
  = {[ SECRETS_REPORT_FILENAME := File "{" ]}.
Proof.
  destruct (X16_unloadable_secrets_report_writes_nothing bare_env DEFAULT_OUTPUT
              (world_of {[ SECRETS_REPORT_FILENAME := File "{" ]})) as (Hfs & _).
  - left. eexists "{", _. split; vm_compute; reflexivity.
  - exact Hfs.
Defined.

Lemma X17_unknown_schedule_type_returns_witness :
  schedule_scan bare_env 5 "repo" "hourly" None (world_of repo_disk)
  = (Ok (Some tt), emit (Log ERROR "Invalid schedule type: hourly") (world_of repo_disk)).
Proof.
  apply (X17_unknown_schedule_type_returns bare_env 5 "repo" "hourly" None
           (world_of repo_disk)).
  unfold VALID_SCHEDULES. simpl. intros [H | [H | [H | [H | []]]]]; discriminate H.
Defined.

Lemma X19_every_requested_tool_is_started_witness :
  started (secrets_command "temp_repo") (world_of ∅)
    (snd (perform_scan git_only_env sample_url None (world_of ∅))) /\
  started (nuclei_command sample_url) (world_of ∅)
    (snd (perform_scan git_only_env sample_url None (world_of ∅))) /\
  started (testssl_command sample_url) (world_of ∅)
    (snd (perform_scan git_only_env sample_url None (world_of ∅))).
Proof.
  destruct (X19_every_requested_tool_is_started git_only_env sample_url None
              (world_of ∅)) as (H1 & H2 & H3).
  - vm_compute. reflexivity.
  - split; [exact (H1 eq_refl) |]. split; [exact (H2 eq_refl eq_refl) |].
    exact (H3 eq_refl eq_refl).
Defined.
